(** * CoinSensei: the login and second-factor flow

    A shallow embedding of the authentication code of the CoinSensei mobile
    client and of the SQL functions it calls:

    - [TwoFactorService] (services/twoFactorService.ts) and the PL/pgSQL
      functions [generate_backup_codes], [verify_otp], [enable_2fa] and
      [disable_2fa];
    - [AuthContext] (context/AuthContext.tsx): the provider's state, its
      auth-state listener and the sign-in operations;
    - [LoginScreen] (screens/LoginScreen.tsx): the password step, the email
      one-time code and its resend cooldown, the 2FA callbacks;
    - [OTPVerification]: the check of a TOTP or backup code.

    Asynchronous functions are embedded in sequential order: every [await]
    is a point where the callee runs to completion. React state is
    embedded as variables that the handlers read and assign; rendering,
    navigation and the unmounting of components are not part of the
    embedding. *)

From Stdlib Require Import ZArith QArith Qround String Ascii List Bool Lia.
From stdpp Require Import base strings gmap pretty.
Import ListNotations.

Local Open Scope string_scope.

(** ** Exceptions

    A JavaScript function either returns a value or throws. *)

Inductive Error : Type :=
| AuthError (message : string)        (* error of supabase.auth *)
| PostgrestError (message : string)   (* error of a query or of an rpc *)
| LibraryError (message : string)     (* thrown by an npm package *)
| JsError (message : string).         (* new Error(message) *)

Definition message_of (e : Error) : string :=
  match e with
  | AuthError m | PostgrestError m | LibraryError m | JsError m => m
  end.

Inductive Result (A : Type) : Type :=
| Ok (a : A)
| Throw (e : Error).
Arguments Ok {A} a.
Arguments Throw {A} e.

Definition returns {A} (r : Result A) : Prop := exists a, r = Ok a.

(** try { body } catch (error) { handler } *)
Definition try_catch {A} (body : Result A) (handler : Error -> Result A) : Result A :=
  match body with
  | Ok a => Ok a
  | Throw e => handler e
  end.

Definition bind_result {A B} (r : Result A) (k : A -> Result B) : Result B :=
  match r with
  | Ok a => k a
  | Throw e => Throw e
  end.

(** A JavaScript string is truthy when it is not empty. *)
Definition truthy (s : string) : bool := negb (String.eqb s "").

Definition truthy_opt (o : option string) : bool :=
  match o with
  | Some s => truthy s
  | None => false
  end.

(** ** The SQL functions of the second factor *)

Module Sql.

(** The columns of [user_profile] that the functions read and write. *)
Record user_profile : Type := mk_profile {
  two_factor_enabled : bool;
  two_factor_secret : option string;
  backup_codes : option (list string)
}.

Definition set_two_factor_enabled (b : bool) (r : user_profile) : user_profile :=
  mk_profile b (two_factor_secret r) (backup_codes r).
Definition set_two_factor_secret (s : option string) (r : user_profile) : user_profile :=
  mk_profile (two_factor_enabled r) s (backup_codes r).
Definition set_backup_codes (c : option (list string)) (r : user_profile) : user_profile :=
  mk_profile (two_factor_enabled r) (two_factor_secret r) c.

(** The table, keyed by [uid]. *)
Abbreviation table := (gmap string user_profile).

(** UPDATE user_profile SET ... WHERE uid = user_id *)
Definition update_where_uid (user_id : string) (f : user_profile -> user_profile)
    (t : table) : table :=
  alter f user_id t.

(** lpad(s, len, fill): [s] cut to [len] characters when it is longer,
    else [fill] repeated on the left up to [len] characters. *)
Fixpoint repeat_string (n : nat) (fill : string) : string :=
  match n with
  | O => ""
  | S n' => fill +:+ repeat_string n' fill
  end.

Definition lpad (s : string) (len : nat) (fill : string) : string :=
  if (String.length s <? len)%nat
  then substring 0 (len - String.length s)
         (repeat_string (len - String.length s) fill) +:+ s
  else substring 0 len s.

(** floor(x)::TEXT, the decimal digits of an integer. Double precision
    is read as exact arithmetic on rationals. *)
Definition floor_text (x : Q) : string := pretty (Qfloor x).

(** generate_backup_codes: the loop FOR i IN 1..8. [random k] is the
    value of the k-th call of random(), a number of [0, 1). *)
Fixpoint backup_codes_loop (random : nat -> Q) (iterations k : nat)
    (codes : list string) : list string :=
  match iterations with
  | O => codes
  | S n =>
      let code := lpad (floor_text (random k * 100000000)) 8 "0" in
      backup_codes_loop random n (S k) (codes ++ [code])
  end.

Definition generate_backup_codes (random : nat -> Q) (user_id : string)
    (t : table) : list string * table :=
  let codes := backup_codes_loop random 8 0 [] in
  (codes, update_where_uid user_id (set_backup_codes (Some codes)) t).

(** array_remove(a, x): every element equal to [x] is removed. *)
Definition array_remove (a : list string) (x : string) : list string :=
  filter (fun y => y ≠ x) a.

(** x = ANY(a) *)
Definition any_eq (x : string) (a : list string) : bool :=
  existsb (String.eqb x) a.

(** verify_otp. SELECT ... INTO leaves the variables NULL when no row
    matches. The name backup_codes stands for the column in the SELECT
    list and for the variable after it; a server that refuses to run
    the function is an rpc that answers with an error. *)
Definition verify_otp (user_id otp : string) (t : table) : bool * table :=
  let codes := t !! user_id ≫= backup_codes in
  match codes with
  | Some a =>
      if any_eq otp a
      then (true, update_where_uid user_id (set_backup_codes (Some (array_remove a otp))) t)
      else (true, t)   (* RETURN TRUE, after the IF *)
  | None => (true, t)
  end.

Definition enable_2fa (user_id secret : string) (t : table) : bool * table :=
  (true, update_where_uid user_id
           (fun r => set_two_factor_secret (Some secret) (set_two_factor_enabled true r)) t).

Definition disable_2fa (user_id : string) (t : table) : bool * table :=
  (true, update_where_uid user_id
           (fun r => set_backup_codes None
                       (set_two_factor_secret None (set_two_factor_enabled false r))) t).

(** substr(s, start, count), with positions counted from 1; the part of
    the window before position 1 is lost. *)
Definition substr (s : string) (start : Z) (count : nat) : string :=
  if (start <? 1)%Z
  then substring 0 (Z.to_nat (start + Z.of_nat count - 1)) s
  else substring (Z.to_nat (start - 1)) count s.

Definition chars : string := "ABCDEFGHIJKLMNOPQRSTUVWXYZ234567".

(** generate_2fa_secret: the loop FOR i IN 1..32. *)
Fixpoint secret_loop (random : nat -> Q) (iterations k : nat) (secret : string) : string :=
  match iterations with
  | O => secret
  | S n =>
      let random_byte := (Qfloor (random k * 32) + 1)%Z in
      secret_loop random n (S k) (secret +:+ substr chars random_byte 1)
  end.

Definition generate_2fa_secret (random : nat -> Q) (user_id : string)
    (t : table) : string * table :=
  let secret := secret_loop random 32 0 "" in
  (secret, update_where_uid user_id (set_two_factor_secret (Some secret)) t).

End Sql.

(** ** TwoFactorService *)

Module TwoFactorService.

(** debugTOTP: the counter of the time step that contains [now], the
    value of Date.now() in milliseconds. *)
Definition timeStep : Z := 30.
Definition counter (now : Z) : Z := ((now / 1000) / timeStep)%Z.

Section WithTotpGenerator.

(** The code that the package totp-generator computes from a secret
    and the counter of a time step; it throws on a secret that it
    cannot decode. *)
Variable hotp : string -> Z -> Result string.

(** Modelled from the spec: [TOTP.generate] of the package
    totp-generator, which is not part of the repository, is a function
    of the secret and of the current time bucketed into steps of 30
    seconds. *)
Definition TOTP_generate (secret : string) (now : Z) : Result string :=
  hotp secret (counter now).

Definition generateTOTP (secret : string) (now : Z) : Result string :=
  try_catch (TOTP_generate secret now) (fun error => Throw error).

(** The argument [time] is not used in the body. *)
Definition generateTOTPForTime (secret : string) (time : Z) (now : Z) : Result string :=
  try_catch (TOTP_generate secret now) (fun error => Throw error).

Definition verifyTOTP (secret token : string) (now : Z) : Result bool :=
  try_catch
    (bind_result (generateTOTP secret now) (fun generatedToken =>
       Ok (String.eqb token generatedToken)))
    (fun error => Ok false).

(** The outcome of the two requests that [verifyOTP] sends. *)
Record Faults : Type := mk_faults {
  select_error : option Error;   (* the query of two_factor_secret *)
  rpc_error : option Error       (* the rpc verify_otp *)
}.
Definition no_fault : Faults := mk_faults None None.

(** .from('user_profile').select('two_factor_secret').eq('uid', userId).single() *)
Definition select_two_factor_secret (f : Faults) (userId : string)
    (t : Sql.table) : option (option string) :=
  match select_error f with
  | Some _ => None
  | None => Sql.two_factor_secret <$> t !! userId
  end.

(** The body of the try block of [verifyOTP]. *)
Definition verifyOTP_body (f : Faults) (userId otp : string) (now : Z)
    (t : Sql.table) : Result bool * Sql.table :=
  let rpc :=
    match rpc_error f with
    | Some error => (Throw error, t)
    | None => let '(data, t') := Sql.verify_otp userId otp t in (Ok data, t')
    end in
  if (String.length otp =? 6)%nat then
    match select_two_factor_secret f userId t with
    | Some (Some secret) =>
        if truthy secret then
          match verifyTOTP secret otp now with
          | Ok isValidTOTP =>
              (* console.log evaluates generateTOTP once more *)
              match generateTOTP secret now with
              | Ok _ => if isValidTOTP then (Ok true, t) else rpc
              | Throw error => (Throw error, t)
              end
          | Throw error => (Throw error, t)
          end
        else rpc
    | _ => rpc
    end
  else rpc.

Definition verifyOTP (f : Faults) (userId otp : string) (now : Z)
    (t : Sql.table) : Result bool * Sql.table :=
  let '(r, t') := verifyOTP_body f userId otp now t in
  (try_catch r (fun error => Ok false), t').

(** generateBackupCodes: the rpc generate_backup_codes. *)
Definition generateBackupCodes (rpc_error : option Error) (random : nat -> Q)
    (userId : string) (t : Sql.table) : Result (list string) * Sql.table :=
  match rpc_error with
  | Some error => (try_catch (Throw error) (fun error => Throw error), t)
  | None =>
      let '(data, t') := Sql.generate_backup_codes random userId t in
      (Ok data, t')
  end.

(** The wrappers of the other rpcs: an error of the request is thrown. *)
Definition generateSecret (rpc_error : option Error) (random : nat -> Q)
    (userId : string) (t : Sql.table) : Result string * Sql.table :=
  match rpc_error with
  | Some error => (try_catch (Throw error) (fun error => Throw error), t)
  | None =>
      let '(data, t') := Sql.generate_2fa_secret random userId t in
      (Ok data, t')
  end.

Definition generateQRCode (secret email : string) : Result string :=
  Ok ("otpauth://totp/CoinSensei:" +:+ email +:+ "?secret=" +:+ secret
      +:+ "&issuer=CoinSensei").

Definition enable2FA (rpc_error : option Error) (userId secret : string)
    (t : Sql.table) : Result bool * Sql.table :=
  match rpc_error with
  | Some error => (try_catch (Throw error) (fun error => Throw error), t)
  | None =>
      let '(data, t') := Sql.enable_2fa userId secret t in
      (Ok data, t')
  end.

Definition disable2FA (rpc_error : option Error) (userId : string)
    (t : Sql.table) : Result bool * Sql.table :=
  match rpc_error with
  | Some error => (try_catch (Throw error) (fun error => Throw error), t)
  | None =>
      let '(data, t') := Sql.disable_2fa userId t in
      (Ok data, t')
  end.

(** get2FAStatus: the row read with .single(), an error when it is
    missing or when the request fails. *)
Record Status : Type := mk_status {
  enabled : bool;
  secret : option string;
  backupCodes : option (list string)
}.

Definition get2FAStatus (select_error : option Error) (userId : string)
    (t : Sql.table) : Result Status :=
  match select_error with
  | Some error => try_catch (Throw error) (fun error => Throw error)
  | None =>
      match t !! userId with
      | Some data =>
          Ok (mk_status (Sql.two_factor_enabled data || false)
                (Sql.two_factor_secret data) (Sql.backup_codes data))
      | None => try_catch (Throw (PostgrestError "PGRST116")) (fun error => Throw error)
      end
  end.

End WithTotpGenerator.

End TwoFactorService.

(** ** The state of the client

    React state, the module variable [pending2FACredentials], the device's
    secure store and the Supabase client, gathered in one record [World].
    [wallet] and the KYC status follow [user] and are left out. *)

Record AuthUser : Type := mk_auth_user {
  id : string;
  user_email : string
}.

Inductive AuthChangeEvent : Type :=
| INITIAL_SESSION | SIGNED_IN | SIGNED_OUT | TOKEN_REFRESHED | USER_UPDATED.

Definition is_SIGNED_IN (event : AuthChangeEvent) : bool :=
  match event with SIGNED_IN => true | _ => false end.

(** The requests sent to supabase.auth that sign in, sign out or send
    mail, in the order they are made. *)
Inductive AuthCall : Type :=
| CallSignInWithPassword (email password : string)
| CallSignOut
| CallSignInWithOtp (email : string)
| CallVerifyOtp (email token : string).

Record Client : Type := mk_client {
  accounts : gmap string (string * AuthUser);   (* email -> password, user *)
  session : option AuthUser;
  user_profile : Sql.table;
  postgrest_up : bool;                           (* queries answer *)
  mail : nat -> string;                          (* the k-th code emailed *)
  sent : list (string * string);                 (* codes emailed, latest first *)
  calls : list AuthCall
}.

Record UserProfile : Type := mk_user {
  uid : string;
  email : option string;
  two_factor_enabled : bool;
  biometric_enabled : bool
}.

(** The state of AuthProvider and the module variable
    [pending2FACredentials]. *)
Record AuthState : Type := mk_auth {
  user : option UserProfile;
  loading : bool;
  pending2FA : option (string * bool);           (* userId, show *)
  isBiometricLogin : bool;
  suppress2FA : bool;
  pending2FACredentials : option (string * string)
}.

Record BiometricCredentials : Type := mk_credentials {
  cred_email : string;
  cred_password : string
}.

(** expo-secure-store, under the keys biometric_enabled and
    biometric_credentials (kept parsed), and the answers of
    expo-local-authentication. *)
Record Device : Type := mk_device {
  stored_enabled : option string;
  stored_credentials : option BiometricCredentials;
  hasHardware : bool;
  isEnrolled : bool;
  challenge : bool                               (* authenticateAsync().success *)
}.

(** The state of LoginScreen. [timers] counts the intervals that run. *)
Record LoginState : Type := mk_login {
  login_email : string;
  login_password : string;
  showEmailOtpModal : bool;
  emailOtpCode : string;
  sendingEmailOtp : bool;
  verifyingEmailOtp : bool;
  resendSecondsLeft : Z;
  showVerifyingOverlay : bool;
  timers : nat
}.

Record World : Type := mk_world {
  supabase : Client;
  auth : AuthState;
  device : Device;
  login : LoginState;
  alerts : list (string * string)                (* title, message; latest last *)
}.

(** *** Assignments *)

Definition set_session (v : option AuthUser) (c : Client) : Client :=
  mk_client (accounts c) v (user_profile c) (postgrest_up c) (mail c) (sent c) (calls c).
Definition set_user_profile (v : Sql.table) (c : Client) : Client :=
  mk_client (accounts c) (session c) v (postgrest_up c) (mail c) (sent c) (calls c).
Definition set_sent (v : list (string * string)) (c : Client) : Client :=
  mk_client (accounts c) (session c) (user_profile c) (postgrest_up c) (mail c) v (calls c).
Definition set_calls (v : list AuthCall) (c : Client) : Client :=
  mk_client (accounts c) (session c) (user_profile c) (postgrest_up c) (mail c) (sent c) v.

Definition set_user (v : option UserProfile) (a : AuthState) : AuthState :=
  mk_auth v (loading a) (pending2FA a) (isBiometricLogin a) (suppress2FA a)
    (pending2FACredentials a).
Definition set_loading (v : bool) (a : AuthState) : AuthState :=
  mk_auth (user a) v (pending2FA a) (isBiometricLogin a) (suppress2FA a)
    (pending2FACredentials a).
Definition set_pending2FA (v : option (string * bool)) (a : AuthState) : AuthState :=
  mk_auth (user a) (loading a) v (isBiometricLogin a) (suppress2FA a)
    (pending2FACredentials a).
Definition set_isBiometricLogin (v : bool) (a : AuthState) : AuthState :=
  mk_auth (user a) (loading a) (pending2FA a) v (suppress2FA a)
    (pending2FACredentials a).
Definition set_suppress2FA (v : bool) (a : AuthState) : AuthState :=
  mk_auth (user a) (loading a) (pending2FA a) (isBiometricLogin a) v
    (pending2FACredentials a).
Definition set_pending2FACredentials (v : option (string * string)) (a : AuthState)
    : AuthState :=
  mk_auth (user a) (loading a) (pending2FA a) (isBiometricLogin a) (suppress2FA a) v.

Definition set_showEmailOtpModal (v : bool) (l : LoginState) : LoginState :=
  mk_login (login_email l) (login_password l) v (emailOtpCode l) (sendingEmailOtp l)
    (verifyingEmailOtp l) (resendSecondsLeft l) (showVerifyingOverlay l) (timers l).
Definition set_emailOtpCode (v : string) (l : LoginState) : LoginState :=
  mk_login (login_email l) (login_password l) (showEmailOtpModal l) v (sendingEmailOtp l)
    (verifyingEmailOtp l) (resendSecondsLeft l) (showVerifyingOverlay l) (timers l).
Definition set_sendingEmailOtp (v : bool) (l : LoginState) : LoginState :=
  mk_login (login_email l) (login_password l) (showEmailOtpModal l) (emailOtpCode l) v
    (verifyingEmailOtp l) (resendSecondsLeft l) (showVerifyingOverlay l) (timers l).
Definition set_verifyingEmailOtp (v : bool) (l : LoginState) : LoginState :=
  mk_login (login_email l) (login_password l) (showEmailOtpModal l) (emailOtpCode l)
    (sendingEmailOtp l) v (resendSecondsLeft l) (showVerifyingOverlay l) (timers l).
Definition set_resendSecondsLeft (v : Z) (l : LoginState) : LoginState :=
  mk_login (login_email l) (login_password l) (showEmailOtpModal l) (emailOtpCode l)
    (sendingEmailOtp l) (verifyingEmailOtp l) v (showVerifyingOverlay l) (timers l).
Definition set_showVerifyingOverlay (v : bool) (l : LoginState) : LoginState :=
  mk_login (login_email l) (login_password l) (showEmailOtpModal l) (emailOtpCode l)
    (sendingEmailOtp l) (verifyingEmailOtp l) (resendSecondsLeft l) v (timers l).
Definition set_timers (v : nat) (l : LoginState) : LoginState :=
  mk_login (login_email l) (login_password l) (showEmailOtpModal l) (emailOtpCode l)
    (sendingEmailOtp l) (verifyingEmailOtp l) (resendSecondsLeft l)
    (showVerifyingOverlay l) v.

Definition on_supabase (f : Client -> Client) (w : World) : World :=
  mk_world (f (supabase w)) (auth w) (device w) (login w) (alerts w).
Definition on_auth (f : AuthState -> AuthState) (w : World) : World :=
  mk_world (supabase w) (f (auth w)) (device w) (login w) (alerts w).
Definition on_device (f : Device -> Device) (w : World) : World :=
  mk_world (supabase w) (auth w) (f (device w)) (login w) (alerts w).
Definition on_login (f : LoginState -> LoginState) (w : World) : World :=
  mk_world (supabase w) (auth w) (device w) (f (login w)) (alerts w).
Definition alert (title message : string) (w : World) : World :=
  mk_world (supabase w) (auth w) (device w) (login w) (alerts w ++ [(title, message)]).

(** ** Asynchronous functions: state and exceptions *)

Definition M (A : Type) : Type := World -> Result A * World.

Definition ret {A} (a : A) : M A := fun w => (Ok a, w).
Definition throw {A} (e : Error) : M A := fun w => (Throw e, w).
Definition bind {A B} (m : M A) (k : A -> M B) : M B :=
  fun w => match m w with
           | (Ok a, w') => k a w'
           | (Throw e, w') => (Throw e, w')
           end.
Definition run (f : World -> World) : M unit := fun w => (Ok tt, f w).
Definition read {A} (f : World -> A) : M A := fun w => (Ok (f w), w).

(** try { m } catch (error) { handler error } *)
Definition try_ {A} (m : M A) (handler : Error -> M A) : M A :=
  fun w => match m w with
           | (Ok a, w') => (Ok a, w')
           | (Throw e, w') => handler e w'
           end.

(** try { m } finally { cleanup } *)
Definition finally {A} (m : M A) (cleanup : World -> World) : M A :=
  fun w => let '(r, w') := m w in (r, cleanup w').

Declare Scope js_scope.
Delimit Scope js_scope with js.
Notation "x <~ m ;; k" := (bind m (fun x => k))
  (at level 100, m at next level, right associativity) : js_scope.
Notation "m ;; k" := (bind m (fun _ => k))
  (at level 100, right associativity) : js_scope.
Local Open Scope js_scope.

(** f() without await, for an async f: the caller goes on whatever
    becomes of the promise. *)
Definition detached (m : M unit) : M unit :=
  fun w => (Ok tt, snd (m w)).

Definition world_of {A} (x : Result A * World) : World := snd x.
Definition result_of {A} (x : Result A * World) : Result A := fst x.

(** ** supabase-js *)

(** { data, error }: the answer of a request; nothing is thrown. *)
Inductive Response (A : Type) : Type :=
| Data (data : A)
| Fail (error : Error).
Arguments Data {A} data.
Arguments Fail {A} error.

(** if (error) throw error *)
Definition throw_if_error {A} (r : Response A) : M A :=
  match r with
  | Data a => ret a
  | Fail e => throw e
  end.

Definition call {A} (request : World -> A * World) : M A :=
  fun w => let '(a, w') := request w in (Ok a, w').

Module Supabase.

Definition log (c : AuthCall) : World -> World :=
  on_supabase (fun s => set_calls (calls s ++ [c]) s).

(** .from('user_profile').select(...).eq('uid', userId).single(): an
    error when no row matches or when the request fails. *)
Definition select_single (userId : string) (w : World) : Response Sql.user_profile :=
  if postgrest_up (supabase w) then
    match user_profile (supabase w) !! userId with
    | Some row => Data row
    | None => Fail (PostgrestError "PGRST116")
    end
  else Fail (PostgrestError "Network request failed").

Definition getSession (w : World) : option AuthUser := session (supabase w).

(** The latest code emailed to [email]. *)
Fixpoint latest_code (email : string) (l : list (string * string)) : option string :=
  match l with
  | [] => None
  | (e, code) :: l' => if String.eqb e email then Some code else latest_code email l'
  end.

Section WithSubscriber.

(** The callback registered with supabase.auth.onAuthStateChange. *)
Variable callback : AuthChangeEvent -> option AuthUser -> World -> World.

Definition notify (event : AuthChangeEvent) (w : World) : World :=
  callback event (session (supabase w)) w.

(** Modelled from the spec: the identity provider of supabase-js, which
    is not part of the repository. [signInWithPassword] checks the
    password and, when it is right, establishes a session and announces
    SIGNED_IN to the subscriber before it answers. *)
Definition signInWithPassword (email password : string) (w : World)
    : Response AuthUser * World :=
  let w := log (CallSignInWithPassword email password) w in
  match accounts (supabase w) !! email with
  | Some (expected, u) =>
      if String.eqb expected password
      then (Data u, notify SIGNED_IN (on_supabase (set_session (Some u)) w))
      else (Fail (AuthError "Invalid login credentials"), w)
  | None => (Fail (AuthError "Invalid login credentials"), w)
  end.

(** Modelled from the spec: [signOut] removes the session and announces
    SIGNED_OUT. *)
Definition signOut (w : World) : unit * World :=
  let w := log CallSignOut w in
  (tt, notify SIGNED_OUT (on_supabase (set_session None) w)).

(** Modelled from the spec: [signInWithOtp] with shouldCreateUser false
    emails a code to a known address. *)
Definition signInWithOtp (email : string) (w : World) : Response unit * World :=
  let w := log (CallSignInWithOtp email) w in
  match accounts (supabase w) !! email with
  | Some _ =>
      let c := supabase w in
      (Data tt, on_supabase (set_sent ((email, mail c (length (sent c))) :: sent c)) w)
  | None => (Fail (AuthError "Signups not allowed for otp"), w)
  end.

(** Modelled from the spec: [verifyOtp] of type email accepts the latest
    code sent to the address, once, and then establishes a session. *)
Definition verifyOtp (email token : string) (w : World) : Response AuthUser * World :=
  let w := log (CallVerifyOtp email token) w in
  let c := supabase w in
  match accounts c !! email, latest_code email (sent c) with
  | Some (_, u), Some code =>
      if String.eqb code token
      then (Data u,
            notify SIGNED_IN
              (on_supabase (fun c => set_session (Some u)
                 (set_sent (filter (fun x => x.1 ≠ email) (sent c)) c)) w))
      else (Fail (AuthError "Token has expired or is invalid"), w)
  | _, _ => (Fail (AuthError "Token has expired or is invalid"), w)
  end.

End WithSubscriber.

End Supabase.

(** ** BiometricService *)

Module BiometricService.

Definition isAvailable (w : World) : bool :=
  hasHardware (device w) && isEnrolled (device w).

Definition isBiometricEnabled (w : World) : bool :=
  match stored_enabled (device w) with
  | Some enabled => String.eqb enabled "true"
  | None => false
  end.

Definition authenticateWithBiometric : M (option BiometricCredentials) :=
  isEnabled <~ read isBiometricEnabled ;;
  if negb isEnabled then ret None else
  available <~ read isAvailable ;;
  if negb available then
    run (alert "Biometric Not Available"
           "Biometric authentication is not available. Please use your email and password.") ;;
    ret None
  else
  success <~ read (fun w => challenge (device w)) ;;
  if negb success then ret None else
  credentials <~ read (fun w => stored_credentials (device w)) ;;
  ret credentials.

(** SecureStore.setItemAsync and deleteItemAsync on the two keys. *)
Definition set_stored_enabled (v : option string) (d : Device) : Device :=
  mk_device v (stored_credentials d) (hasHardware d) (isEnrolled d) (challenge d).
Definition set_stored_credentials (v : option BiometricCredentials) (d : Device) : Device :=
  mk_device (stored_enabled d) v (hasHardware d) (isEnrolled d) (challenge d).

Definition enableBiometric (email password : string) : M bool :=
  available <~ read isAvailable ;;
  if negb available then
    run (alert "Biometric Not Available"
           "Biometric authentication is not available on this device or not set up.") ;;
    ret false
  else
  success <~ read (fun w => challenge (device w)) ;;
  if negb success then ret false else
  run (on_device (set_stored_credentials (Some (mk_credentials email password)))) ;;
  run (on_device (set_stored_enabled (Some "true"))) ;;
  ret true.

Definition disableBiometric : M unit :=
  run (on_device (set_stored_enabled None)) ;;
  run (on_device (set_stored_credentials None)).

(** LocalAuthentication.AuthenticationType *)
Inductive AuthenticationType : Type :=
| FINGERPRINT | FACIAL_RECOGNITION | IRIS.

Definition includes (types : list AuthenticationType) (t : AuthenticationType) : bool :=
  existsb (fun x => match x, t with
                    | FINGERPRINT, FINGERPRINT
                    | FACIAL_RECOGNITION, FACIAL_RECOGNITION
                    | IRIS, IRIS => true
                    | _, _ => false
                    end) types.

Definition getBiometricTypeName (types : list AuthenticationType) : string :=
  if includes types FACIAL_RECOGNITION then "Face ID"
  else if includes types FINGERPRINT then "Fingerprint"
  else if includes types IRIS then "Iris"
  else "Biometric".

Definition getBiometricIconName (types : list AuthenticationType) : string :=
  if includes types FACIAL_RECOGNITION then "scan-outline"
  else if includes types FINGERPRINT then "finger-print-outline"
  else if includes types IRIS then "eye-outline"
  else "shield-checkmark-outline".

End BiometricService.

Definition lift {A} (r : Result A) : M A := fun w => (r, w).

(** ** AuthContext *)

Module AuthContext.

(** useState(...) of the first render of AuthProvider. *)
Definition initial : AuthState :=
  mk_auth None true None false false None.

(** The characters that String.prototype.trim removes, among ASCII. *)
Definition is_space (c : ascii) : bool :=
  let n := nat_of_ascii c in
  ((9 <=? n) && (n <=? 13) || (n =? 32))%nat.

Fixpoint trim_is_empty (s : string) : bool :=
  match s with
  | EmptyString => true
  | String c s' => is_space c && trim_is_empty s'
  end.

(** !userId || userId.trim() === '' *)
Definition no_userId (userId : string) : bool :=
  negb (truthy userId) || trim_is_empty userId.

(** fetchUserData(userId, showLoading). The profile is set from the row
    of user_profile, the email of the signed-in user and the flag of the
    secure store; every error ends in setUser(null). *)
Definition fetchUserData (userId : string) (showLoading : bool) (w : World) : World :=
  if no_userId userId then
    if showLoading then on_auth (set_loading false) w else w
  else
    let w := if showLoading then on_auth (set_loading true) w else w in
    let w :=
      match Supabase.select_single userId w with
      | Data profile =>
          let authUser := Supabase.getSession w in
          let actualBiometricEnabled := BiometricService.isBiometricEnabled w in
          on_auth (set_user (Some (mk_user userId (user_email <$> authUser)
                                     (Sql.two_factor_enabled profile)
                                     actualBiometricEnabled))) w
      | Fail _ => on_auth (set_user None) w
      end in
    if showLoading then on_auth (set_loading false) w else w.

(** The else branch of the listener: no session. *)
Definition clear_user_data (w : World) : World :=
  on_auth (fun a => set_loading false (set_pending2FA None (set_user None a))) w.

(** The callback given to supabase.auth.onAuthStateChange. Its free
    variables [suppress2FA] and [isBiometricLogin] are arguments here. *)
Definition onAuthStateChange_callback (suppress2FA isBiometricLogin : bool)
    (event : AuthChangeEvent) (session : option AuthUser) (w : World) : World :=
  if suppress2FA then w else
  match session with
  | Some u =>
      if truthy (id u) then
        match event with
        | TOKEN_REFRESHED => w
        | USER_UPDATED => w
        | _ =>
            match Supabase.select_single (id u) w with
            | Fail _ => fetchUserData (id u) true w
            | Data profile =>
                let requires2FA := Sql.two_factor_enabled profile in
                if requires2FA && is_SIGNED_IN event && negb isBiometricLogin
                then on_auth (fun a => set_loading false
                                         (set_pending2FA (Some (id u, true)) a)) w
                else fetchUserData (id u) true (on_auth (set_pending2FA None) w)
            end
        end
      else clear_user_data w
  | None => clear_user_data w
  end.

(** useEffect(() => { ... supabase.auth.onAuthStateChange(callback) ... },
    []): with the empty list of dependencies the effect runs once, after
    the first render of AuthProvider, and the callback that it subscribes
    closes over the constants [suppress2FA] and [isBiometricLogin] of that
    render, the values given to useState. Later calls of setSuppress2FA and
    setIsBiometricLogin make new renders; the subscribed callback is not
    replaced. *)
Definition subscriber : AuthChangeEvent -> option AuthUser -> World -> World :=
  onAuthStateChange_callback (suppress2FA initial) (isBiometricLogin initial).

Definition signInWith2FA (email password : string) : M AuthUser :=
  run (on_auth (set_pending2FACredentials (Some (email, password)))) ;;
  r <~ call (Supabase.signInWithPassword subscriber email password) ;;
  match r with
  | Fail error =>
      run (on_auth (set_pending2FACredentials None)) ;;
      throw error
  | Data data => ret data
  end.

Definition signIn (email password : string) : M unit :=
  finally
    (try_
       (run (on_auth (set_loading true)) ;;
        r <~ call (Supabase.signInWithPassword subscriber email password) ;;
        data <~ throw_if_error r ;;
        run (fetchUserData (id data) true))
       (fun error => throw error))
    (on_auth (set_loading false)).

(** complete2FALogin. A successful answer of signInWithPassword carries
    the session's user. *)
Definition complete2FALogin : M unit :=
  p <~ read (fun w => pending2FA (auth w)) ;;
  c <~ read (fun w => pending2FACredentials (auth w)) ;;
  match p, c with
  | Some (userId, _), Some (email, password) =>
      try_
        (run (on_auth (set_pending2FA None)) ;;
         r <~ call (Supabase.signInWithPassword subscriber email password) ;;
         run (on_auth (set_pending2FACredentials None)) ;;
         data <~ throw_if_error r ;;
         actualBiometricEnabled <~ read BiometricService.isBiometricEnabled ;;
         run (on_auth (set_user (Some (mk_user (id data) (Some (user_email data)) true
                                         actualBiometricEnabled)))) ;;
         run (on_auth (set_loading false)) ;;
         run (fetchUserData (id data) false))
        (fun error =>
           run (on_auth (set_pending2FA None)) ;;
           run (on_auth (set_pending2FACredentials None)) ;;
           call (Supabase.signOut subscriber) ;;
           throw error)
  | _, _ => ret tt
  end.

Definition cancel2FALogin : M unit :=
  run (on_auth (set_pending2FA None)) ;;
  run (on_auth (set_pending2FACredentials None)) ;;
  call (Supabase.signOut subscriber).

Definition beginEmailOtpFlow : World -> World := on_auth (set_suppress2FA true).
Definition endEmailOtpFlow : World -> World := on_auth (set_suppress2FA false).

Definition complete2FAUsingExistingSession : M unit :=
  try_
    (session <~ read Supabase.getSession ;;
     match session with
     | Some u =>
         if truthy (id u) then
           run (on_auth (set_pending2FA None)) ;;
           run (fetchUserData (id u) true)
         else ret tt
     | None => ret tt
     end)
    (fun error => ret tt).

Definition signOut : M unit :=
  finally
    (try_
       (run (on_auth (set_loading true)) ;;
        call (Supabase.signOut subscriber) ;;
        run (on_auth (set_user None)) ;;
        run (on_auth (set_pending2FACredentials None)))
       (fun error => throw error))
    (on_auth (set_loading false)).

Definition signInWithBiometric : M bool :=
  finally
    (try_
       (run (on_auth (set_loading true)) ;;
        credentials <~ BiometricService.authenticateWithBiometric ;;
        match credentials with
        | None => ret false
        | Some credentials =>
            run (on_auth (set_isBiometricLogin true)) ;;
            r <~ call (Supabase.signInWithPassword subscriber
                         (cred_email credentials) (cred_password credentials)) ;;
            match r with
            | Fail error =>
                run (on_auth (set_isBiometricLogin false)) ;;
                throw error
            | Data data =>
                run (fetchUserData (id data) true) ;;
                run (on_auth (set_isBiometricLogin false)) ;;
                ret true
            end
        end)
       (fun error =>
          run (on_auth (set_isBiometricLogin false)) ;;
          ret false))
    (on_auth (set_loading false)).

(** The members of the context value that LoginScreen tests before use. *)
Record AuthContextType : Type := mk_value {
  value_complete2FAUsingExistingSession : option (M unit);
  value_beginEmailOtpFlow : option (World -> World);
  value_endEmailOtpFlow : option (World -> World)
}.

Definition value : AuthContextType :=
  mk_value (Some complete2FAUsingExistingSession)
           (Some beginEmailOtpFlow) (Some endEmailOtpFlow).

(** enableBiometric and disableBiometric of the context: the flag of the
    user follows the secure store. *)
Definition with_biometric_enabled (b : bool) (u : UserProfile) : UserProfile :=
  mk_user (uid u) (email u) (two_factor_enabled u) b.

Definition enableBiometric (email password : string) : M bool :=
  try_
    (success <~ BiometricService.enableBiometric email password ;;
     u <~ read (fun w => user (auth w)) ;;
     match success, u with
     | true, Some u =>
         run (on_auth (set_user (Some (with_biometric_enabled true u)))) ;;
         ret success
     | _, _ => ret success
     end)
    (fun error => ret false).

Definition disableBiometric : M unit :=
  try_
    (BiometricService.disableBiometric ;;
     u <~ read (fun w => user (auth w)) ;;
     match u with
     | Some u => run (on_auth (set_user (Some (with_biometric_enabled false u))))
     | None => ret tt
     end)
    (fun error => throw error).

End AuthContext.

(** ** OTPVerification *)

Module OTPVerification.

Section WithTotpGenerator.

Variable hotp : string -> Z -> Result string.
(** Date.now() while the code is checked. *)
Variable now : Z.

Definition faults (w : World) : TwoFactorService.Faults :=
  if postgrest_up (supabase w) then TwoFactorService.no_fault
  else TwoFactorService.mk_faults
         (Some (PostgrestError "Network request failed"))
         (Some (PostgrestError "Network request failed")).

(** TwoFactorService.verifyOTP on the table of the client. *)
Definition verifyOTP (userId otp : string) : M bool :=
  fun w =>
    let '(r, t) := TwoFactorService.verifyOTP hotp (faults w) userId otp now
                     (user_profile (supabase w)) in
    (r, on_supabase (set_user_profile t) w).

(** userId || user?.uid *)
Definition currentUserId (userId : option string) (w : World) : option string :=
  match userId with
  | Some u => if truthy u then Some u else uid <$> user (auth w)
  | None => uid <$> user (auth w)
  end.

(** The try block of handleVerifyOTP, up to the value of isValid. *)
Definition check (userId : option string) (showBackupCode : bool) (code : string)
    : M bool :=
  current <~ read (currentUserId userId) ;;
  match current with
  | Some current =>
      if truthy current then
        if negb showBackupCode then
          r <~ read (Supabase.select_single current) ;;
          match r with
          | Data profile =>
              if truthy_opt (Sql.two_factor_secret profile) then
                let secret := default "" (Sql.two_factor_secret profile) in
                (* debugTOTP(secret), then generateTOTP(secret) *)
                lift (TwoFactorService.generateTOTP hotp secret now) ;;
                lift (TwoFactorService.generateTOTP hotp secret now) ;;
                lift (TwoFactorService.verifyTOTP hotp secret code now)
              else throw (JsError "Unable to get 2FA secret")
          | Fail _ => throw (JsError "Unable to get 2FA secret")
          end
        else verifyOTP current code
      else throw (JsError "No user ID available for verification")
  | None => throw (JsError "No user ID available for verification")
  end.

Definition handleVerifyOTP (userId : option string) (onSuccess : M unit)
    (showBackupCode : bool) (code : string) : M unit :=
  if negb (truthy code) then
    run (alert "Error" "Please enter a verification code")
  else if negb showBackupCode && negb (String.length code =? 6)%nat then
    run (alert "Error" "Please enter a 6-digit verification code")
  else if showBackupCode && negb (String.length code =? 8)%nat then
    run (alert "Error" "Please enter an 8-digit backup code")
  else
    try_
      (isValid <~ check userId showBackupCode code ;;
       if isValid then detached onSuccess
       else run (alert "Invalid Code"
                   "The verification code is incorrect. Please try again."))
      (fun error => run (alert "Error" "Failed to verify code. Please try again.")).

End WithTotpGenerator.

End OTPVerification.

(** ** LoginScreen *)

Module LoginScreen.

(** The updater that every tick of setInterval applies to
    resendSecondsLeft; the second component tells clearInterval. *)
Definition countdown (s : Z) : Z * bool :=
  if (s <=? 1)%Z then (0%Z, true) else ((s - 1)%Z, false).

Fixpoint fire (n : nat) (l : LoginState) : LoginState :=
  match n with
  | O => l
  | S n' =>
      let '(s, stop) := countdown (resendSecondsLeft l) in
      let l := set_resendSecondsLeft s l in
      fire n' (if stop then set_timers (pred (timers l)) l else l)
  end.

(** One second passes: every running interval fires once. *)
Definition tick (w : World) : World :=
  on_login (fun l => fire (timers l) l) w.

Fixpoint ticks (k : nat) (w : World) : World :=
  match k with
  | O => w
  | S k' => ticks k' (tick w)
  end.

(** setResendSecondsLeft(30); setInterval(..., 1000) *)
Definition start_cooldown (w : World) : World :=
  on_login (fun l => set_timers (S (timers l)) (set_resendSecondsLeft 30 l)) w.

Definition optional (f : option (World -> World)) : World -> World :=
  match f with
  | Some f => f
  | None => fun w => w
  end.

Definition handleLogin : M unit :=
  email <~ read (fun w => login_email (login w)) ;;
  password <~ read (fun w => login_password (login w)) ;;
  if negb (truthy email) || negb (truthy password) then
    run (alert "Alert" "Please fill in all fields")
  else
    try_
      (run (optional (AuthContext.value_beginEmailOtpFlow AuthContext.value)) ;;
       run (on_login (set_showVerifyingOverlay true)) ;;
       r <~ call (Supabase.signInWithPassword AuthContext.subscriber email password) ;;
       throw_if_error r ;;
       call (Supabase.signOut AuthContext.subscriber) ;;
       run (optional (AuthContext.value_endEmailOtpFlow AuthContext.value)) ;;
       run (on_login (set_sendingEmailOtp true)) ;;
       otp <~ call (Supabase.signInWithOtp email) ;;
       run (on_login (set_sendingEmailOtp false)) ;;
       throw_if_error otp ;;
       run (on_login (set_showEmailOtpModal true)) ;;
       run (on_login (set_emailOtpCode "")) ;;
       run start_cooldown ;;
       run (on_login (set_showVerifyingOverlay false)))
      (fun error =>
         run (on_login (set_showVerifyingOverlay false)) ;;
         run (alert "Alert" (message_of error))).

Definition handleVerifyEmailOtp : M unit :=
  email <~ read (fun w => login_email (login w)) ;;
  code <~ read (fun w => emailOtpCode (login w)) ;;
  if negb (truthy code) || (String.length code <? 6)%nat then
    run (alert "Error" "Please enter the 6-digit code sent to your email")
  else
    try_
      (run (on_login (set_verifyingEmailOtp true)) ;;
       r <~ call (Supabase.verifyOtp AuthContext.subscriber email code) ;;
       run (on_login (set_verifyingEmailOtp false)) ;;
       throw_if_error r ;;
       run (on_login (set_showEmailOtpModal false)) ;;
       run (on_login (set_emailOtpCode "")))
      (fun err =>
         run (on_login (set_verifyingEmailOtp false)) ;;
         run (alert "Invalid Code"
                (if truthy (message_of err) then message_of err
                 else "Failed to verify email code"))).

Definition handleResendEmailOtp : M unit :=
  try_
    (seconds <~ read (fun w => resendSecondsLeft (login w)) ;;
     if (0 <? seconds)%Z then ret tt
     else
       email <~ read (fun w => login_email (login w)) ;;
       run (on_login (set_sendingEmailOtp true)) ;;
       r <~ call (Supabase.signInWithOtp email) ;;
       run (on_login (set_sendingEmailOtp false)) ;;
       throw_if_error r ;;
       run (alert "Code Sent" "We have resent the verification code to your email") ;;
       run start_cooldown)
    (fun err =>
       run (on_login (set_sendingEmailOtp false)) ;;
       run (alert "Error"
              (if truthy (message_of err) then message_of err
               else "Failed to resend code"))).




Definition handle2FASuccess : M unit :=
  try_
    (match AuthContext.value_complete2FAUsingExistingSession AuthContext.value with
     | Some complete2FAUsingExistingSession => complete2FAUsingExistingSession
     | None => AuthContext.complete2FALogin
     end)
    (fun error => run (alert "Alert" (message_of error))).

Definition handle2FACancel : M unit := AuthContext.cancel2FALogin.

(** <OTPVerification onSuccess={handle2FASuccess}
      userId={pending2FA?.userId} />: the Verify button of the modal. *)
Definition verify2FA (hotp : string -> Z -> Result string) (now : Z)
    (showBackupCode : bool) (code : string) : M unit :=
  fun w =>
    OTPVerification.handleVerifyOTP hotp now (fst <$> pending2FA (auth w))
      handle2FASuccess showBackupCode code w.

(** text.replace(/\D/g, '') and t.replace(/[^0-9]/g, ''): the characters
    0 to 9 are kept, in their order. *)
Fixpoint remove_non_digits (text : string) : string :=
  match text with
  | EmptyString => EmptyString
  | String c text' =>
      let n := nat_of_ascii c in
      if ((48 <=? n) && (n <=? 57))%nat
      then String c (remove_non_digits text')
      else remove_non_digits text'
  end.

(** .slice(0, 6) *)
Definition slice_0_6 (text : string) : string := substring 0 6 text.

(** handlePasteEmailOtp: [clipboard] is what Clipboard.getStringAsync
    gives, null included. *)
Definition handlePasteEmailOtp (clipboard : option string) (w : World) : World :=
  let digits := slice_0_6 (remove_non_digits (default "" clipboard)) in
  if (0 <? String.length digits)%nat then on_login (set_emailOtpCode digits) w else w.

(** onChangeText of the hidden input of the email modal. *)
Definition onChangeEmailOtp (t : string) (w : World) : World :=
  on_login (set_emailOtpCode (slice_0_6 (remove_non_digits t))) w.

Definition handleBiometricLogin : M unit :=
  try_
    (AuthContext.signInWithBiometric ;; ret tt)
    (fun error => run (alert "Alert" "Biometric authentication failed. Please try again.")).

End LoginScreen.

(** ** TwoFactorSetup *)

Module TwoFactorSetup.

(** The state of the screen; [wentBack] records navigation.goBack(), and
    [setup_alerts] the alerts, latest last. *)
Record SetupState : Type := mk_setup {
  step : Z;
  setup_secret : string;
  qrCode : string;
  setup_backupCodes : list string;
  isLoading : bool;
  isSettingUp : bool;
  verificationCode : string;
  isVerifying : bool;
  isCodeVerified : bool;
  wentBack : bool;
  setup_alerts : list (string * string)
}.

Definition initial : SetupState :=
  mk_setup 1 "" "" [] true false "" false false false [].

Definition set_secret (v : string) (s : SetupState) : SetupState :=
  mk_setup (step s) v (qrCode s) (setup_backupCodes s) (isLoading s) (isSettingUp s)
    (verificationCode s) (isVerifying s) (isCodeVerified s) (wentBack s) (setup_alerts s).
Definition set_qrCode (v : string) (s : SetupState) : SetupState :=
  mk_setup (step s) (setup_secret s) v (setup_backupCodes s) (isLoading s) (isSettingUp s)
    (verificationCode s) (isVerifying s) (isCodeVerified s) (wentBack s) (setup_alerts s).
Definition set_backupCodes (v : list string) (s : SetupState) : SetupState :=
  mk_setup (step s) (setup_secret s) (qrCode s) v (isLoading s) (isSettingUp s)
    (verificationCode s) (isVerifying s) (isCodeVerified s) (wentBack s) (setup_alerts s).
Definition set_isLoading (v : bool) (s : SetupState) : SetupState :=
  mk_setup (step s) (setup_secret s) (qrCode s) (setup_backupCodes s) v (isSettingUp s)
    (verificationCode s) (isVerifying s) (isCodeVerified s) (wentBack s) (setup_alerts s).
Definition set_isSettingUp (v : bool) (s : SetupState) : SetupState :=
  mk_setup (step s) (setup_secret s) (qrCode s) (setup_backupCodes s) (isLoading s) v
    (verificationCode s) (isVerifying s) (isCodeVerified s) (wentBack s) (setup_alerts s).
Definition set_verificationCode (v : string) (s : SetupState) : SetupState :=
  mk_setup (step s) (setup_secret s) (qrCode s) (setup_backupCodes s) (isLoading s)
    (isSettingUp s) v (isVerifying s) (isCodeVerified s) (wentBack s) (setup_alerts s).
Definition set_isVerifying (v : bool) (s : SetupState) : SetupState :=
  mk_setup (step s) (setup_secret s) (qrCode s) (setup_backupCodes s) (isLoading s)
    (isSettingUp s) (verificationCode s) v (isCodeVerified s) (wentBack s) (setup_alerts s).
Definition set_isCodeVerified (v : bool) (s : SetupState) : SetupState :=
  mk_setup (step s) (setup_secret s) (qrCode s) (setup_backupCodes s) (isLoading s)
    (isSettingUp s) (verificationCode s) (isVerifying s) v (wentBack s) (setup_alerts s).
Definition goBack (s : SetupState) : SetupState :=
  mk_setup (step s) (setup_secret s) (qrCode s) (setup_backupCodes s) (isLoading s)
    (isSettingUp s) (verificationCode s) (isVerifying s) (isCodeVerified s) true
    (setup_alerts s).
Definition setup_alert (title message : string) (s : SetupState) : SetupState :=
  mk_setup (step s) (setup_secret s) (qrCode s) (setup_backupCodes s) (isLoading s)
    (isSettingUp s) (verificationCode s) (isVerifying s) (isCodeVerified s) (wentBack s)
    (setup_alerts s ++ [(title, message)]).

(** setStep(v), followed by the effect that depends on [step], which runs
    when the step has changed: away from step 2 the verification is
    reset. *)
Definition setStep (v : Z) (s : SetupState) : SetupState :=
  if (v =? step s)%Z then s
  else
    let s :=
      mk_setup v (setup_secret s) (qrCode s) (setup_backupCodes s) (isLoading s)
        (isSettingUp s) (verificationCode s) (isVerifying s) (isCodeVerified s)
        (wentBack s) (setup_alerts s) in
    if (v =? 2)%Z then s else set_verificationCode "" (set_isCodeVerified false s).

(** setup2FA. [userId] is user?.uid || '' and [full_name] is
    user?.full_name || ''; [secret_error] and [codes_error] are the errors
    of the two rpcs, [secret_random] and [codes_random] their random(). *)
Definition setup2FA (secret_error codes_error : option Error)
    (secret_random codes_random : nat -> Q) (userId full_name : string)
    (s : SetupState) (t : Sql.table) : SetupState * Sql.table :=
  let failed (s : SetupState) :=
    goBack (setup_alert "Error" "Failed to setup 2FA. Please try again." s) in
  let s := set_isLoading true s in
  match TwoFactorService.generateSecret secret_error secret_random userId t with
  | (Throw _, t) => (failed s, t)
  | (Ok generatedSecret, t) =>
      let s := set_secret generatedSecret s in
      match TwoFactorService.generateQRCode generatedSecret full_name with
      | Throw _ => (failed s, t)
      | Ok qrCodeDataURL =>
          let s := set_qrCode qrCodeDataURL s in
          match TwoFactorService.generateBackupCodes codes_error codes_random userId t with
          | (Throw _, t) => (failed s, t)
          | (Ok codes, t) => (set_isLoading false (set_backupCodes codes s), t)
          end
      end
  end.

Definition handleNext (s : SetupState) : SetupState :=
  if (step s =? 2)%Z && negb (isCodeVerified s) then
    setup_alert "Verification Required"
      "Please verify your authenticator setup by entering the 6-digit code before proceeding."
      s
  else if (step s <? 3)%Z then setStep (step s + 1) s
  else s.

Definition handleBack (s : SetupState) : SetupState :=
  if (1 <? step s)%Z then setStep (step s - 1) s else goBack s.

(** The button Continue of the alert that follows a verified code. *)
Definition pressContinue (s : SetupState) : SetupState := setStep 3 s.

Definition handleVerifyCode (hotp : string -> Z -> Result string) (now : Z)
    (s : SetupState) : SetupState :=
  if negb (truthy (verificationCode s))
     || negb (String.length (verificationCode s) =? 6)%nat then
    setup_alert "Invalid Code" "Please enter a 6-digit verification code" s
  else
    let s := set_isVerifying true s in
    let s :=
      match TwoFactorService.verifyTOTP hotp (setup_secret s) (verificationCode s) now with
      | Ok true =>
          setup_alert "Verification Successful!"
            "Your authenticator is working correctly. You can now proceed to save backup codes."
            (set_isCodeVerified true s)
      | Ok false =>
          setup_alert "Invalid Code" "The verification code is incorrect. Please try again." s
      | Throw _ => setup_alert "Error" "Failed to verify code. Please try again." s
      end in
    set_isVerifying false s.

Definition handleComplete (enable_error codes_error : option Error)
    (codes_random : nat -> Q) (userId : string)
    (s : SetupState) (t : Sql.table) : SetupState * Sql.table :=
  let failed (s : SetupState) :=
    set_isSettingUp false (setup_alert "Error" "Failed to enable 2FA. Please try again." s) in
  let s := set_isSettingUp true s in
  match TwoFactorService.enable2FA enable_error userId (setup_secret s) t with
  | (Throw _, t) => (failed s, t)
  | (Ok _, t) =>
      match TwoFactorService.generateBackupCodes codes_error codes_random userId t with
      | (Throw _, t) => (failed s, t)
      | (Ok generatedBackupCodes, t) =>
          (set_isSettingUp false
             (setup_alert "2FA Enabled Successfully!"
                "Your account is now protected with two-factor authentication. Make sure to save your backup codes!"
                (set_backupCodes generatedBackupCodes s)), t)
      end
  end.

End TwoFactorSetup.

(** ** AccountSettings *)

Module AccountSettings.

(** The error of an rpc when the server does not answer. *)
Definition rpc_fault (w : World) : option Error :=
  if postgrest_up (supabase w) then None
  else Some (PostgrestError "Network request failed").

(** TwoFactorService.disable2FA on the table of the client. *)
Definition disable2FA (userId : string) : M bool :=
  fun w =>
    let '(r, t) := TwoFactorService.disable2FA (rpc_fault w) userId
                     (user_profile (supabase w)) in
    (r, on_supabase (set_user_profile t) w).

Definition handle2FADisable : M unit :=
  try_
    (u <~ read (fun w => user (auth w)) ;;
     disable2FA (default "" (uid <$> u)) ;;
     match u with
     | Some u =>
         if truthy (uid u) then run (AuthContext.fetchUserData (uid u) false) else ret tt
     | None => ret tt
     end)
    (fun error => ret tt).

(** handlePasswordConfirm; [biometricTypeName] is the name shown. *)
Definition handlePasswordConfirm (biometricTypeName password : string) : M bool :=
  try_
    (u <~ read (fun w => user (auth w)) ;;
     match u ≫= email with
     | Some user_email =>
         if truthy user_email then
           success <~ AuthContext.enableBiometric user_email password ;;
           if success then
             run (alert "Success"
                    (biometricTypeName +:+ " login has been enabled successfully!")) ;;
             ret true
           else
             run (alert "Failed"
                    "Failed to enable biometric login. Please check your password and try again.") ;;
             ret false
         else run (alert "Error" "User email not found") ;; ret false
     | None => run (alert "Error" "User email not found") ;; ret false
     end)
    (fun error =>
       run (alert "Error"
              (if truthy (message_of error) then message_of error
               else "Failed to enable biometric login")) ;;
       ret false).

End AccountSettings.

(** ** useRefreshControl and the refresh of HistoryScreen *)

Module RefreshControl.

Section WithState.

(** The state that the refreshed screen holds. *)
Variable S : Type.

(** handleRefresh of useRefreshControl({ onRefresh }): a function of no
    argument. The first component of the state is isRefreshing. *)
Definition handleRefresh (onRefresh : option (S -> Result unit * S))
    (st : bool * S) : bool * S :=
  let '(isRefreshing, screen) := st in
  if isRefreshing then st
  else
    let screen :=
      match onRefresh with
      | Some onRefresh => snd (onRefresh screen)
      | None => screen
      end in
    (false, screen).

(** HistoryScreen: useRefreshControl() is called without onRefresh, and
    onRefresh calls handleRefresh(fetchPkrHistory); the argument has no
    parameter to bind to. *)
Definition HistoryScreen_onRefresh (fetchPkrHistory : S -> Result unit * S)
    (st : bool * S) : bool * S :=
  (fun (_ : S -> Result unit * S) => handleRefresh None st) fetchPkrHistory.

End WithState.

End RefreshControl.

(** ** Concrete accounts

    Alice has the second factor enabled and the biometric login set up on
    her phone; Carol has no second factor. *)

Module Example.
Definition alice := mk_auth_user "alice-uid" "alice@example.com".
Definition carol := mk_auth_user "carol-uid" "carol@example.com".
Definition codes := ["11111111"; "22222222"; "33333333"; "44444444";
                     "55555555"; "66666666"; "77777777"; "88888888"].
(** A generator whose code changes with the time step, and that rejects
    every secret but one. *)
Definition totp (secret : string) (c : Z) : Result string :=
  if String.eqb secret "JBSWY3DPEHPK3PXP"
  then Ok (Sql.lpad (pretty ((482913 + c) mod 1000000)%Z) 6 "0")
  else Throw (LibraryError "Invalid base32 character").
Definition client : Client :=
  mk_client
    (<[ "alice@example.com" := ("correct-password", alice) ]>
      (<[ "carol@example.com" := ("hunter2", carol) ]> ∅))
    None
    (<[ "alice-uid" := Sql.mk_profile true (Some "JBSWY3DPEHPK3PXP") (Some codes) ]>
       (<[ "carol-uid" := Sql.mk_profile false None None ]> ∅))
    true (fun k => "135790") [] [].
Definition phone : Device :=
  mk_device (Some "true") (Some (mk_credentials "alice@example.com" "correct-password"))
    true true true.
Definition blank : LoginState := mk_login "" "" false "" false false 0 false 0.
Definition start : World :=
  mk_world client (set_loading false AuthContext.initial) phone blank [].
End Example.

(** The user types an email and a password into the form. *)
Definition typed (e p : string) (w : World) : World :=
  on_login (fun l => mk_login e p (showEmailOtpModal l) (emailOtpCode l) (sendingEmailOtp l)
     (verifyingEmailOtp l) (resendSecondsLeft l) (showVerifyingOverlay l) (timers l)) w.

(** Alice's login, step by step: the password, then the emailed code. *)
Definition email_code_pending : World :=
  world_of (LoginScreen.handleLogin (typed "alice@example.com" "correct-password" Example.start)).

Definition second_factor_pending : World :=
  world_of (LoginScreen.handleVerifyEmailOtp
              (on_login (set_emailOtpCode "135790") email_code_pending)).

(** ** Vocabulary of the properties *)

Definition is_digit (c : ascii) : bool :=
  let n := nat_of_ascii c in ((48 <=? n) && (n <=? 57))%nat.

Fixpoint all_digits (s : string) : bool :=
  match s with
  | EmptyString => true
  | String c s' => is_digit c && all_digits s'
  end.





(** A sign-in with a password is among the requests made from [w] to
    [w']. *)
Definition reauthenticates (w w' : World) : Prop :=
  exists email password rest,
    calls (supabase w')
    = (calls (supabase w) ++ CallSignInWithPassword email password :: rest)%list.

(** The listener and fetchUserData write the React state of
    AuthProvider and nothing else, and leave the retained credentials and
    the two flags as they are. *)
Definition same_outside_auth (w w' : World) : Prop :=
  supabase w' = supabase w /\ device w' = device w /\ login w' = login w /\
  alerts w' = alerts w /\
  pending2FACredentials (auth w') = pending2FACredentials (auth w) /\
  isBiometricLogin (auth w') = isBiometricLogin (auth w) /\
  suppress2FA (auth w') = suppress2FA (auth w).

(** A character of the base32 alphabet, A to Z and 2 to 7. *)
Definition is_base32 (c : ascii) : bool :=
  let n := nat_of_ascii c in
  ((65 <=? n) && (n <=? 90) || (50 <=? n) && (n <=? 55))%nat.

Fixpoint all_base32 (s : string) : bool :=
  match s with
  | EmptyString => true
  | String c s' => is_base32 c && all_base32 s'
  end.

(** The row of a user after disable_2fa. *)
Definition cleared : Sql.user_profile := Sql.mk_profile false None None.

(** A client whose queries and rpcs are not answered. *)
Definition offline (w : World) : World :=
  on_supabase (fun c => mk_client (accounts c) (session c) (user_profile c) false
                          (mail c) (sent c) (calls c)) w.

(** The intervals that run and the seconds they count down, and what one
    second does to them. *)
Fixpoint fire_pair (n : nat) (p : nat * Z) : nat * Z :=
  match n with
  | O => p
  | S n' =>
      let '(running, s) := p in
      if (s <=? 1)%Z then fire_pair n' (pred running, 0%Z)
      else fire_pair n' (running, (s - 1)%Z)
  end.

Definition tick_pair (p : nat * Z) : nat * Z := fire_pair (fst p) p.

Definition countdown_of (w : World) : nat * Z :=
  (timers (login w), resendSecondsLeft (login w)).

Fixpoint ticks_pair (k : nat) (p : nat * Z) : nat * Z :=
  match k with
  | O => p
  | S k' => ticks_pair k' (tick_pair p)
  end.

(** The steps of TwoFactorSetup run from 1 to 3, and only at step 2 may
    a code be typed or count as verified. *)
Definition setup_inv (s : TwoFactorSetup.SetupState) : Prop :=
  (1 <= TwoFactorSetup.step s <= 3)%Z /\
  (TwoFactorSetup.step s <> 2%Z ->
   TwoFactorSetup.isCodeVerified s = false /\ TwoFactorSetup.verificationCode s = "").

(** * Properties *)

(** ** The TOTP engine *)

Section TotpEngine.

Variable hotp : string -> Z -> Result string.

Import TwoFactorService.

Lemma counter_window (k t : Z) :
  (30000 * k <= t < 30000 * (k + 1))%Z -> counter t = k.
Proof.
  intros H. unfold counter, timeStep.
  rewrite Z.div_div by lia. symmetry.
  apply (Z.div_unique t (1000 * 30) k (t - 30000 * k)); lia.
Qed.

Lemma generateTOTP_step (secret : string) (t1 t2 : Z) :
  counter t1 = counter t2 -> generateTOTP hotp secret t1 = generateTOTP hotp secret t2.
Proof. unfold generateTOTP, TOTP_generate. intros ->. reflexivity. Qed.

Lemma verifyTOTP_returns (secret token : string) (now : Z) :
  returns (verifyTOTP hotp secret token now).
Proof.
  unfold verifyTOTP, generateTOTP, TOTP_generate.
  destruct (hotp secret (counter now)); cbn; eexists; reflexivity.
Qed.

Lemma verifyTOTP_spec (secret token : string) (now : Z) :
  verifyTOTP hotp secret token now =
  match generateTOTP hotp secret now with
  | Ok generated => Ok (String.eqb token generated)
  | Throw _ => Ok false
  end.
Proof.
  unfold verifyTOTP, generateTOTP, TOTP_generate.
  destruct (hotp secret (counter now)); reflexivity.
Qed.

(** C9: a code generated for a secret verifies during the time step of
    its generation, and verifyTOTP answers false, without throwing, when
    the generator fails. *)
Theorem verifyTOTP_accepts_generateTOTP (secret : string) :
  (forall t_gen t_ver code,
      counter t_gen = counter t_ver ->
      generateTOTP hotp secret t_gen = Ok code ->
      verifyTOTP hotp secret code t_ver = Ok true) /\
  (forall token now, returns (verifyTOTP hotp secret token now)) /\
  (forall token now error,
      generateTOTP hotp secret now = Throw error ->
      verifyTOTP hotp secret token now = Ok false).
Proof.
  split; [|split].
  - intros t_gen t_ver code Hstep Hgen.
    rewrite verifyTOTP_spec, <- (generateTOTP_step secret t_gen t_ver Hstep), Hgen.
    now rewrite String.eqb_refl.
  - intros token now. apply verifyTOTP_returns.
  - intros token now error Hgen. now rewrite verifyTOTP_spec, Hgen.
Qed.

(** C10: generateTOTPForTime gives the same result for every time
    argument, the result of generateTOTP at the current time. *)
Theorem generateTOTPForTime_ignores_time (secret : string) (t1 t2 now : Z) :
  generateTOTPForTime hotp secret t1 now = generateTOTPForTime hotp secret t2 now /\
  generateTOTPForTime hotp secret t1 now = generateTOTP hotp secret now.
Proof. split; reflexivity. Qed.

End TotpEngine.

Lemma verifyTOTP_accepts_generateTOTP_witness :
  TwoFactorService.verifyTOTP Example.totp "JBSWY3DPEHPK3PXP" "482913" 29999 = Ok true /\
  TwoFactorService.verifyTOTP Example.totp "not base32" "482913" 29999 = Ok false.
Proof.
  destruct (verifyTOTP_accepts_generateTOTP Example.totp "JBSWY3DPEHPK3PXP") as [Hok _].
  destruct (verifyTOTP_accepts_generateTOTP Example.totp "not base32") as [_ [_ Hfail]].
  split.
  - apply (Hok 1000%Z 29999%Z "482913"); reflexivity.
  - apply (Hfail "482913" 29999%Z (LibraryError "Invalid base32 character")); reflexivity.
Defined.

(** The code of the step of 60 s is returned when the code of time 0 is
    asked for. *)
Example generateTOTPForTime_not_for_time :
  TwoFactorService.generateTOTPForTime Example.totp "JBSWY3DPEHPK3PXP" 0 60000 = Ok "482915" /\
  TwoFactorService.generateTOTP Example.totp "JBSWY3DPEHPK3PXP" 0 = Ok "482913".
Proof. split; reflexivity. Qed.

(** ** The verification gateway *)

Section Gateway.

Variable hotp : string -> Z -> Result string.

Import TwoFactorService.

Lemma verify_otp_answer (user_id otp : string) (t : Sql.table) :
  (Sql.verify_otp user_id otp t).1 = true.
Proof.
  unfold Sql.verify_otp.
  destruct (t !! user_id ≫= Sql.backup_codes) as [a|]; [|reflexivity].
  destruct (Sql.any_eq otp a); reflexivity.
Qed.

Lemma any_eq_elem_of (x : string) (a : list string) :
  Sql.any_eq x a = true <-> x ∈ a.
Proof.
  unfold Sql.any_eq. rewrite existsb_exists, list_elem_of_In. split.
  - intros [y [Hin Heq]]. apply String.eqb_eq in Heq. now subst.
  - intros Hin. exists x. split; [assumption | apply String.eqb_refl].
Qed.

Lemma array_remove_not_elem (x : string) (a : list string) :
  x ∉ Sql.array_remove a x.
Proof. unfold Sql.array_remove. rewrite list_elem_of_filter. tauto. Qed.

(** A backup code that is used leaves the stored set. *)
Lemma verify_otp_consumes (user_id otp : string) (t : Sql.table)
    (row : Sql.user_profile) (a : list string) :
  t !! user_id = Some row -> Sql.backup_codes row = Some a -> otp ∈ a ->
  exists a', (Sql.verify_otp user_id otp t).2 !! user_id ≫= Sql.backup_codes = Some a'
             /\ otp ∉ a'.
Proof.
  intros Hrow Hcodes Hin. unfold Sql.verify_otp.
  rewrite Hrow. cbn. rewrite Hcodes.
  apply any_eq_elem_of in Hin. rewrite Hin. cbn.
  unfold Sql.update_where_uid. rewrite lookup_alter_eq, Hrow. cbn.
  eexists. split; [reflexivity | apply array_remove_not_elem].
Qed.

(** verifyOTP has a value: the catch clause returns false. *)
Lemma verifyOTP_returns (f : Faults) (userId otp : string) (now : Z) (t : Sql.table) :
  returns (verifyOTP hotp f userId otp now t).1.
Proof.
  unfold verifyOTP. destruct (verifyOTP_body hotp f userId otp now t) as [[b|e] t'];
    cbn; eexists; reflexivity.
Qed.

Lemma verifyOTP_rpc_fails (f : Faults) (userId otp : string) (now : Z)
    (t : Sql.table) (error : Error) :
  rpc_error f = Some error -> String.length otp <> 6 ->
  verifyOTP hotp f userId otp now t = (Ok false, t).
Proof.
  intros Hrpc Hlen. unfold verifyOTP, verifyOTP_body. rewrite Hrpc.
  apply Nat.eqb_neq in Hlen. rewrite Hlen. reflexivity.
Qed.

(** A six-character code that is not the TOTP of the stored secret is
    refused when the rpc fails. *)
Lemma verifyOTP_rpc_fails_wrong_totp (f : Faults) (userId otp : string) (now : Z)
    (t : Sql.table) (error : Error) (row : Sql.user_profile) (secret generated : string) :
  rpc_error f = Some error ->
  t !! userId = Some row -> Sql.two_factor_secret row = Some secret ->
  generateTOTP hotp secret now = Ok generated -> otp <> generated ->
  verifyOTP hotp f userId otp now t = (Ok false, t).
Proof.
  intros Hrpc Hrow Hsecret Hgen Hne. unfold verifyOTP, verifyOTP_body. rewrite Hrpc.
  destruct (String.length otp =? 6)%nat; [|reflexivity].
  unfold select_two_factor_secret. destruct (select_error f); [reflexivity|].
  rewrite Hrow. cbn. rewrite Hsecret.
  destruct (truthy secret); [|reflexivity].
  rewrite verifyTOTP_spec, Hgen.
  apply String.eqb_neq in Hne. rewrite Hne. reflexivity.
Qed.

(** When the requests are answered and the generator accepts the stored
    secret, verifyOTP answers true for every code. *)
Lemma verifyOTP_accepts_every_code (userId otp : string) (now : Z) (t : Sql.table)
    (row : Sql.user_profile) (secret generated : string) :
  t !! userId = Some row -> Sql.two_factor_secret row = Some secret ->
  generateTOTP hotp secret now = Ok generated ->
  (verifyOTP hotp no_fault userId otp now t).1 = Ok true.
Proof.
  intros Hrow Hsecret Hgen. unfold verifyOTP, verifyOTP_body. cbn.
  pose proof (verify_otp_answer userId otp t) as Hrpc.
  destruct (Sql.verify_otp userId otp t) as [data t']. cbn in Hrpc. subst data.
  destruct (String.length otp =? 6)%nat; [|reflexivity].
  unfold select_two_factor_secret. cbn. rewrite Hrow. cbn. rewrite Hsecret.
  destruct (truthy secret); [|reflexivity].
  rewrite verifyTOTP_spec, Hgen.
  destruct (String.eqb otp generated); reflexivity.
Qed.

End Gateway.



(** ** Backup codes *)

Section BackupCodes.




Lemma length_append (s1 s2 : string) :
  String.length (s1 +:+ s2) = (String.length s1 + String.length s2)%nat.
Proof. induction s1 as [|c s1 IH]; simpl; [reflexivity | now rewrite IH]. Qed.




Lemma all_digits_substring (s : string) (n : nat) :
  all_digits s = true -> all_digits (substring 0 n s) = true.
Proof.
  revert n. induction s as [|c s IH]; intros [|n] H; cbn in *; try reflexivity.
  apply andb_true_iff in H as [Hc Hs]. now rewrite Hc, IH.
Qed.




















End BackupCodes.




(** ** The orchestrator *)

Ltac frame := unfold same_outside_auth; cbn; repeat split; reflexivity.

(** Reduces the field accesses and assignments, and nothing else. *)
Ltac fields :=
  cbn [supabase auth device login alerts
       on_supabase on_auth on_device on_login alert Supabase.log
       accounts session user_profile postgrest_up mail sent calls
       set_session set_user_profile set_sent set_calls
       user loading pending2FA isBiometricLogin suppress2FA pending2FACredentials
       set_user set_loading set_pending2FA set_isBiometricLogin set_suppress2FA
       set_pending2FACredentials
       login_email login_password showEmailOtpModal emailOtpCode sendingEmailOtp
       verifyingEmailOtp resendSecondsLeft showVerifyingOverlay timers
       set_showEmailOtpModal set_emailOtpCode set_sendingEmailOtp set_verifyingEmailOtp
       set_resendSecondsLeft set_showVerifyingOverlay set_timers
       world_of result_of fst snd] in *.

Lemma fetchUserData_frame (userId : string) (showLoading : bool) (w : World) :
  same_outside_auth w (AuthContext.fetchUserData userId showLoading w) /\
  pending2FA (auth (AuthContext.fetchUserData userId showLoading w)) = pending2FA (auth w).
Proof.
  unfold AuthContext.fetchUserData.
  destruct (AuthContext.no_userId userId), showLoading; try (split; [frame | reflexivity]);
    unfold Supabase.select_single; cbn;
    destruct (postgrest_up (supabase w)); try (split; [frame | reflexivity]);
    destruct (user_profile (supabase w) !! userId); split; try frame; reflexivity.
Qed.

Lemma subscriber_frame (event : AuthChangeEvent) (s : option AuthUser) (w : World) :
  same_outside_auth w (AuthContext.subscriber event s w).
Proof.
  unfold AuthContext.subscriber, AuthContext.onAuthStateChange_callback. cbn.
  destruct s as [u|]; [|frame].
  destruct (truthy (id u)); [|frame].
  assert (same_outside_auth w
            match Supabase.select_single (id u) w with
            | Data profile =>
                if Sql.two_factor_enabled profile && is_SIGNED_IN event && negb false
                then on_auth (fun a => set_loading false (set_pending2FA (Some (id u, true)) a)) w
                else AuthContext.fetchUserData (id u) true (on_auth (set_pending2FA None) w)
            | Fail _ => AuthContext.fetchUserData (id u) true w
            end) as Hquery.
  { destruct (Supabase.select_single (id u) w) as [profile|e].
    - destruct (Sql.two_factor_enabled profile && is_SIGNED_IN event && negb false);
        [frame|].
      apply (fetchUserData_frame (id u) true (on_auth (set_pending2FA None) w)).
    - apply fetchUserData_frame. }
  destruct event; try exact Hquery; frame.
Qed.

Lemma subscriber_no_session (event : AuthChangeEvent) (w : World) :
  AuthContext.subscriber event None w = AuthContext.clear_user_data w.
Proof. reflexivity. Qed.

(** signOut, as the clients of AuthContext see it. *)
Lemma signOut_spec (w : World) :
  Supabase.signOut AuthContext.subscriber w
  = (tt, AuthContext.clear_user_data
           (on_supabase (set_session None) (Supabase.log CallSignOut w))).
Proof. reflexivity. Qed.

Lemma calls_grow_not_equal (w w' : World) :
  calls (supabase w') = calls (supabase w) -> ~ reauthenticates w w'.
Proof.
  intros Heq (e & p & rest & H). rewrite Heq in H.
  apply (f_equal (@length AuthCall)) in H. rewrite length_app in H. cbn in H. lia.
Qed.

Lemma cancel2FALogin_spec (w : World) :
  AuthContext.cancel2FALogin w
  = (Ok tt,
     AuthContext.clear_user_data
       (on_supabase (set_session None)
          (Supabase.log CallSignOut
             (on_auth (set_pending2FACredentials None)
                (on_auth (set_pending2FA None) w))))).
Proof. reflexivity. Qed.

(** C6: once cancel2FALogin has returned the session has been signed out
    and getSession finds none, and there is no retained credential, no
    pending second factor and no user; a code submitted afterwards is
    refused for want of a user id whatever the code is, and
    complete2FALogin does nothing. *)
Theorem cancel2FALogin_clears (w : World) :
  let w' := world_of (AuthContext.cancel2FALogin w) in
  result_of (AuthContext.cancel2FALogin w) = Ok tt /\
  calls (supabase w') = (calls (supabase w) ++ [CallSignOut])%list /\
  Supabase.getSession w' = None /\
  pending2FACredentials (auth w') = None /\
  pending2FA (auth w') = None /\
  user (auth w') = None /\
  (forall hotp now showBackupCode code,
      OTPVerification.check hotp now (fst <$> pending2FA (auth w')) showBackupCode code w'
      = (Throw (JsError "No user ID available for verification"), w') /\
      exists title message,
        LoginScreen.verify2FA hotp now showBackupCode code w'
        = (Ok tt, alert title message w')) /\
  AuthContext.complete2FALogin w' = (Ok tt, w').
Proof.
  rewrite cancel2FALogin_spec. cbn [world_of result_of fst snd].
  split; [reflexivity|]. split; [reflexivity|]. split; [reflexivity|].
  split; [reflexivity|]. split; [reflexivity|]. split; [reflexivity|].
  split; [|reflexivity].
  intros hotp now showBackupCode code. split; [reflexivity|].
  unfold LoginScreen.verify2FA, OTPVerification.handleVerifyOTP.
  destruct (negb (truthy code)); [eexists _, _; reflexivity|].
  destruct (negb showBackupCode && negb (String.length code =? 6)%nat);
    [eexists _, _; reflexivity|].
  destruct (showBackupCode && negb (String.length code =? 8)%nat);
    [eexists _, _; reflexivity|].
  eexists _, _. reflexivity.
Qed.

(** ** The resend cooldown *)

Lemma tick_counts_down (w : World) (s : Z) :
  timers (login w) = 1%nat -> resendSecondsLeft (login w) = s -> (1 < s)%Z ->
  timers (login (LoginScreen.tick w)) = 1%nat /\
  resendSecondsLeft (login (LoginScreen.tick w)) = (s - 1)%Z.
Proof.
  intros Ht Hs Hlt. unfold LoginScreen.tick. cbn. rewrite Ht. cbn.
  unfold LoginScreen.countdown. rewrite Hs.
  destruct (Z.leb_spec s 1); [lia|]. cbn. split; [assumption | reflexivity].
Qed.

(** Fewer than 30 seconds after a code was sent the countdown shows what
    is left of the 30 seconds. *)
Lemma cooldown_after_ticks (k : nat) (w : World) (s : Z) :
  timers (login w) = 1%nat -> resendSecondsLeft (login w) = s -> (Z.of_nat k < s)%Z ->
  resendSecondsLeft (login (LoginScreen.ticks k w)) = (s - Z.of_nat k)%Z.
Proof.
  revert w s. induction k as [|k IH]; intros w s Ht Hs Hlt; cbn [LoginScreen.ticks].
  - rewrite Hs. lia.
  - destruct (tick_counts_down w s Ht Hs) as [Ht' Hs']; [lia|].
    rewrite (IH _ (s - 1)%Z Ht' Hs'); lia.
Qed.





(** ** The biometric shortcut *)

(** The callback reads [isBiometricLogin] where it was created: with the
    value true it would go on to the user's data without a prompt. *)
Lemma callback_with_flag_skips_prompt (w : World) (u : AuthUser) (row : Sql.user_profile) :
  truthy (id u) = true -> Supabase.select_single (id u) w = Data row ->
  AuthContext.onAuthStateChange_callback false true SIGNED_IN (Some u) w
  = AuthContext.fetchUserData (id u) true (on_auth (set_pending2FA None) w).
Proof.
  intros Hid Hrow. unfold AuthContext.onAuthStateChange_callback.
  rewrite Hid, Hrow. now rewrite andb_false_r.
Qed.

(** The subscribed callback is the one of the first render: the prompt of
    the second factor is raised at every SIGNED_IN of an account with the
    second factor enabled, whatever the state holds. *)
Lemma subscriber_prompts (w : World) (u : AuthUser) (row : Sql.user_profile) :
  truthy (id u) = true -> Supabase.select_single (id u) w = Data row ->
  Sql.two_factor_enabled row = true ->
  AuthContext.subscriber SIGNED_IN (Some u) w
  = on_auth (fun a => set_loading false (set_pending2FA (Some (id u, true)) a)) w.
Proof.
  intros Hid Hrow H2fa.
  unfold AuthContext.subscriber, AuthContext.onAuthStateChange_callback. cbn.
  now rewrite Hid, Hrow, H2fa.
Qed.

(** C5: Alice has the second factor enabled and biometric credentials in
    the secure store. With a successful challenge signInWithBiometric
    returns true and sets the user, and the second factor is pending and
    shown. *)
Theorem signInWithBiometric_raises_prompt :
  let w := Example.start in
  let w' := world_of (AuthContext.signInWithBiometric w) in
  (Sql.two_factor_enabled <$> user_profile (supabase w) !! "alice-uid") = Some true /\
  stored_credentials (device w)
    = Some (mk_credentials "alice@example.com" "correct-password") /\
  challenge (device w) = true /\
  pending2FA (auth w) = None /\
  result_of (AuthContext.signInWithBiometric w) = Ok true /\
  user (auth w')
    = Some (mk_user "alice-uid" (Some "alice@example.com") true true) /\
  pending2FA (auth w') = Some ("alice-uid", true).
Proof. cbv zeta. repeat split; vm_compute; reflexivity. Qed.

(** ** Completing the login *)

Lemma signInWithPassword_cases (email password : string) (w : World) :
  (exists u,
      accounts (supabase w) !! email = Some (password, u) /\
      Supabase.signInWithPassword AuthContext.subscriber email password w
      = (Data u,
         AuthContext.subscriber SIGNED_IN (Some u)
           (on_supabase (set_session (Some u))
              (Supabase.log (CallSignInWithPassword email password) w)))) \/
  (exists error,
      Supabase.signInWithPassword AuthContext.subscriber email password w
      = (Fail error, Supabase.log (CallSignInWithPassword email password) w)).
Proof.
  unfold Supabase.signInWithPassword. cbn.
  destruct (accounts (supabase w) !! email) as [[expected u]|] eqn:Hacc;
    [|right; eexists; reflexivity].
  destruct (String.eqb_spec expected password) as [->|Hne];
    [|right; eexists; reflexivity].
  left. exists u. split; reflexivity.
Qed.

Lemma handle2FASuccess_spec (w : World) :
  LoginScreen.handle2FASuccess w
  = (Ok tt,
     match session (supabase w) with
     | Some u =>
         if truthy (id u)
         then AuthContext.fetchUserData (id u) true (on_auth (set_pending2FA None) w)
         else w
     | None => w
     end).
Proof.
  unfold LoginScreen.handle2FASuccess. cbn.
  unfold AuthContext.complete2FAUsingExistingSession, try_, bind, read, Supabase.getSession.
  destruct (session (supabase w)) as [u|]; [|reflexivity].
  destruct (truthy (id u)); reflexivity.
Qed.

Lemma complete2FALogin_reauthenticates (w : World) (userId : string) (show : bool)
    (email password : string) :
  pending2FA (auth w) = Some (userId, show) ->
  pending2FACredentials (auth w) = Some (email, password) ->
  let w' := world_of (AuthContext.complete2FALogin w) in
  (exists rest,
      calls (supabase w')
      = (calls (supabase w) ++ CallSignInWithPassword email password :: rest)%list) /\
  pending2FACredentials (auth w') = None.
Proof.
  intros Hp Hc. unfold AuthContext.complete2FALogin, bind, read. rewrite Hp, Hc.
  unfold try_, bind, run, call.
  destruct (signInWithPassword_cases email password (on_auth (set_pending2FA None) w))
    as [(u & Hacc & ->)|(error & ->)].
  - match goal with
    | |- context [AuthContext.subscriber ?e ?s ?x] =>
        destruct (subscriber_frame e s x) as (Hs & _);
        generalize dependent (AuthContext.subscriber e s x); intros w1 Hs
    end.
    cbn [throw_if_error ret].
    match goal with
    | |- context [AuthContext.fetchUserData ?i ?b ?x] =>
        destruct (fetchUserData_frame i b x) as [(Hs' & _ & _ & _ & Hc' & _) _];
        generalize dependent (AuthContext.fetchUserData i b x); intros w2 Hs' Hc'
    end.
    fields. split.
    + exists []. rewrite Hs', Hs. reflexivity.
    + exact Hc'.
  - cbn [throw_if_error]. unfold throw. rewrite signOut_spec.
    unfold AuthContext.clear_user_data. fields.
    split; [exists [CallSignOut]|]; [|reflexivity].
    now rewrite <- app_assoc.
Qed.

(** C3: when the second factor has been verified the login screen calls
    complete2FAUsingExistingSession: no sign-in request is made, the
    session of the email code is kept, pending2FA is cleared and the user
    is fetched for that session. The fresh sign-in with the retained email
    and password is the work of complete2FALogin, run with a pending
    second factor and retained credentials; it clears the credentials when
    the request has returned. *)
Theorem handle2FASuccess_uses_existing_session (w : World) :
  (let w' := world_of (LoginScreen.handle2FASuccess w) in
   result_of (LoginScreen.handle2FASuccess w) = Ok tt /\
   calls (supabase w') = calls (supabase w) /\
   session (supabase w') = session (supabase w) /\
   pending2FACredentials (auth w') = pending2FACredentials (auth w) /\
   (forall u, session (supabase w) = Some u -> truthy (id u) = true ->
      w' = AuthContext.fetchUserData (id u) true (on_auth (set_pending2FA None) w) /\
      pending2FA (auth w') = None)) /\
  (forall userId show email password,
      pending2FA (auth w) = Some (userId, show) ->
      pending2FACredentials (auth w) = Some (email, password) ->
      let w2 := world_of (AuthContext.complete2FALogin w) in
      (exists rest,
          calls (supabase w2)
          = (calls (supabase w) ++ CallSignInWithPassword email password :: rest)%list) /\
      pending2FACredentials (auth w2) = None).
Proof.
  split;
    [|intros userId show email password Hp Hc;
      exact (complete2FALogin_reauthenticates w userId show email password Hp Hc)].
  rewrite handle2FASuccess_spec. cbn [world_of result_of fst snd].
  split; [reflexivity|].
  destruct (session (supabase w)) as [u|] eqn:Hsession.
  - destruct (truthy (id u)) eqn:Hid.
    + destruct (fetchUserData_frame (id u) true (on_auth (set_pending2FA None) w))
        as [(Hs & _ & _ & _ & Hc & _) Hp].
      rewrite Hs, Hc, Hp. fields. rewrite Hsession.
      repeat split; try reflexivity. congruence.
    + repeat split; try reflexivity; congruence.
  - repeat split; try reflexivity; congruence.
Qed.

Lemma handle2FASuccess_uses_existing_session_witness :
  (let w := second_factor_pending in
   let w' := world_of (LoginScreen.handle2FASuccess w) in
   calls (supabase w') = calls (supabase w) /\
   session (supabase w') = Some Example.alice /\
   pending2FA (auth w') = None) /\
  (let w := on_auth (set_pending2FACredentials
                       (Some ("alice@example.com", "correct-password")))
              second_factor_pending in
   let w2 := world_of (AuthContext.complete2FALogin w) in
   (exists rest,
       calls (supabase w2)
       = (calls (supabase w)
          ++ CallSignInWithPassword "alice@example.com" "correct-password" :: rest)%list) /\
   pending2FACredentials (auth w2) = None).
Proof.
  cbv zeta. split.
  - destruct (handle2FASuccess_uses_existing_session second_factor_pending)
      as [(_ & Hcalls & Hsession & _ & Hfetch) _].
    destruct (Hfetch Example.alice) as [_ Hpending];
      [vm_compute; reflexivity | vm_compute; reflexivity |].
    split; [exact Hcalls|]. split; [|exact Hpending].
    rewrite Hsession. vm_compute. reflexivity.
  - destruct (handle2FASuccess_uses_existing_session
                (on_auth (set_pending2FACredentials
                            (Some ("alice@example.com", "correct-password")))
                   second_factor_pending)) as [_ Hreauth].
    apply (Hreauth "alice-uid" true); vm_compute; reflexivity.
Defined.

(** C3, as stated: Alice, past the password and the emailed code, submits
    the right TOTP code. She is logged in and no sign-in request was made
    after the code of the email step. *)
Lemma login_without_reauthentication :
  let w := second_factor_pending in
  let w' := world_of (LoginScreen.verify2FA Example.totp 0 false "482913" w) in
  pending2FA (auth w) = Some ("alice-uid", true) /\
  pending2FACredentials (auth w) = None /\
  TwoFactorService.verifyTOTP Example.totp "JBSWY3DPEHPK3PXP" "482913" 0 = Ok true /\
  user (auth w') = Some (mk_user "alice-uid" (Some "alice@example.com") true true) /\
  pending2FA (auth w') = None /\
  ~ reauthenticates w w'.
Proof.
  cbv zeta. repeat split; try (vm_compute; reflexivity).
  apply calls_grow_not_equal. vm_compute. reflexivity.
Qed.

(** ** The password step *)

Lemma signInWithPassword_accepts (email password : string) (u : AuthUser) (w : World) :
  accounts (supabase w) !! email = Some (password, u) ->
  Supabase.signInWithPassword AuthContext.subscriber email password w
  = (Data u,
     AuthContext.subscriber SIGNED_IN (Some u)
       (on_supabase (set_session (Some u))
          (Supabase.log (CallSignInWithPassword email password) w))).
Proof.
  intros Hacc. unfold Supabase.signInWithPassword. fields.
  now rewrite Hacc, String.eqb_refl.
Qed.

Lemma signInWithPassword_rejects (email password : string) (w : World) :
  (forall u, accounts (supabase w) !! email <> Some (password, u)) ->
  exists error,
    Supabase.signInWithPassword AuthContext.subscriber email password w
    = (Fail error, Supabase.log (CallSignInWithPassword email password) w).
Proof.
  intros Hacc.
  destruct (signInWithPassword_cases email password w) as [(u & Hu & _)|H];
    [now destruct (Hacc u) | exact H].
Qed.



(** A wrong password establishes no session, and none is signed out. *)
Lemma handleLogin_wrong_password (w : World) (email password : string) :
  truthy email = true -> truthy password = true ->
  (forall u, accounts (supabase w) !! email <> Some (password, u)) ->
  let w' := world_of (LoginScreen.handleLogin (typed email password w)) in
  session (supabase w') = session (supabase w) /\
  calls (supabase w') = (calls (supabase w) ++ [CallSignInWithPassword email password])%list /\
  auth w' = set_suppress2FA true (auth w) /\
  showEmailOtpModal (login w') = showEmailOtpModal (login w).
Proof.
  intros Hemail Hpassword Hacc.
  unfold LoginScreen.handleLogin, bind, read, typed. cbn [login on_login login_email login_password].
  rewrite Hemail, Hpassword. cbn [negb orb].
  unfold try_, bind, run, call.
  cbn [LoginScreen.optional AuthContext.value AuthContext.value_beginEmailOtpFlow
       AuthContext.value_endEmailOtpFlow].
  unfold AuthContext.beginEmailOtpFlow.
  match goal with
  | |- context [Supabase.signInWithPassword ?s ?e ?p ?x] =>
      destruct (signInWithPassword_rejects e p x) as [error ->]; [fields; exact Hacc|]
  end.
  cbn [throw_if_error]. unfold throw. fields. repeat split; reflexivity.
Qed.

(** * Further properties *)

(** ** The SQL functions and their wrappers *)

Section SqlFunctions.

Lemma update_where_uid_lookup (user_id k : string) (f : Sql.user_profile -> Sql.user_profile)
    (t : Sql.table) :
  Sql.update_where_uid user_id f t !! k
  = if decide (k = user_id) then f <$> t !! k else t !! k.
Proof.
  unfold Sql.update_where_uid. destruct (decide (k = user_id)) as [->|Hne].
  - apply lookup_alter_eq.
  - apply lookup_alter_ne. congruence.
Qed.

Lemma update_where_uid_missing (user_id : string) (f : Sql.user_profile -> Sql.user_profile)
    (t : Sql.table) :
  t !! user_id = None -> Sql.update_where_uid user_id f t = t.
Proof.
  intros Hnone. apply map_eq. intros k. rewrite update_where_uid_lookup.
  destruct (decide (k = user_id)) as [->|]; [now rewrite Hnone | reflexivity].
Qed.

Lemma base32_at (k : nat) :
  (k < 32)%nat ->
  exists c, Sql.substr Sql.chars (Z.of_nat k + 1) 1 = String c EmptyString
            /\ is_base32 c = true.
Proof.
  intros Hk.
  assert (forallb (fun k => match Sql.substr Sql.chars (Z.of_nat k + 1) 1 with
                            | String c EmptyString => is_base32 c
                            | _ => false
                            end) (seq 0 32) = true) as Hall by (vm_compute; reflexivity).
  rewrite forallb_forall in Hall. specialize (Hall k).
  destruct (Sql.substr Sql.chars (Z.of_nat k + 1) 1) as [|c [|]];
    try (discriminate Hall; apply in_seq; lia).
  exists c. split; [reflexivity|]. apply Hall, in_seq. lia.
Qed.

Lemma secret_byte_range (r : Q) :
  (0 <= r)%Q /\ (r < 1)%Q ->
  exists k, (k < 32)%nat /\ (Qfloor (r * 32) + 1)%Z = (Z.of_nat k + 1)%Z.
Proof.
  intros [H0 H1]. exists (Z.to_nat (Qfloor (r * 32))).
  assert (0 <= Qfloor (r * 32) < 32)%Z as Hrange.
  { split.
    - change 0%Z with (Qfloor 0). apply Qfloor_resp_le.
      apply Qmult_le_0_compat; [assumption | discriminate].
    - rewrite Zlt_Qlt.
      apply Qle_lt_trans with (r * 32)%Q; [apply Qfloor_le|].
      change (inject_Z 32) with (1 * 32)%Q.
      apply Qmult_lt_compat_r; [reflexivity | assumption]. }
  split; lia.
Qed.

Lemma all_base32_append (s1 s2 : string) :
  all_base32 (s1 +:+ s2) = all_base32 s1 && all_base32 s2.
Proof.
  induction s1 as [|c s1 IH]; simpl; [reflexivity|].
  now rewrite IH, andb_assoc.
Qed.

Lemma secret_loop_base32 (random : nat -> Q) (n k : nat) (secret : string) :
  (forall i, (0 <= random i)%Q /\ (random i < 1)%Q) ->
  all_base32 secret = true ->
  String.length (Sql.secret_loop random n k secret) = (String.length secret + n)%nat /\
  all_base32 (Sql.secret_loop random n k secret) = true.
Proof.
  intros Hr. revert k secret. induction n as [|n IH]; intros k secret Hs;
    cbn [Sql.secret_loop].
  - split; [lia | assumption].
  - destruct (secret_byte_range (random k) (Hr k)) as (j & Hj & ->).
    destruct (base32_at j Hj) as (c & -> & Hc).
    destruct (IH (S k) (secret +:+ String c EmptyString)) as [Hlen Hall].
    + rewrite all_base32_append, Hs. cbn. now rewrite Hc.
    + rewrite Hlen, length_append. cbn. split; [lia | assumption].
Qed.

(** X1: generate_2fa_secret returns 32 characters of the base32 alphabet
    and writes them to the secret of the user's row; the enabled flag,
    the backup codes and the other rows stay as they are. *)
Theorem generate_2fa_secret_base32 (random : nat -> Q) (user_id : string) (t : Sql.table) :
  (forall i, (0 <= random i)%Q /\ (random i < 1)%Q) ->
  let secret := (Sql.generate_2fa_secret random user_id t).1 in
  let t' := (Sql.generate_2fa_secret random user_id t).2 in
  String.length secret = 32%nat /\
  all_base32 secret = true /\
  forall k, t' !! k = if decide (k = user_id)
                      then Sql.set_two_factor_secret (Some secret) <$> t !! k
                      else t !! k.
Proof.
  intros Hr. cbv zeta. unfold Sql.generate_2fa_secret. cbn [fst snd].
  destruct (secret_loop_base32 random 32 0 "" Hr eq_refl) as [Hlen Hall].
  split; [exact Hlen|]. split; [exact Hall|].
  intros k. apply update_where_uid_lookup.
Qed.

Lemma generate_2fa_secret_base32_witness :
  let random := fun k : nat => 1 # Pos.of_succ_nat (S k) in
  let secret := (Sql.generate_2fa_secret random "carol-uid" (user_profile Example.client)).1 in
  String.length secret = 32%nat /\ all_base32 secret = true.
Proof.
  cbv zeta.
  destruct (generate_2fa_secret_base32 (fun k : nat => 1 # Pos.of_succ_nat (S k))
              "carol-uid" (user_profile Example.client)) as (Hlen & Hall & _).
  - intros i. split; [unfold Qle | unfold Qlt]; cbn; lia.
  - split; assumption.
Defined.

End SqlFunctions.

Section TwoFactorStatus.

Import TwoFactorService.

(** X2: disable2FA, when the rpc is answered, returns true and resets the
    user's row to disabled, without secret and without backup codes; the
    other rows are untouched, and get2FAStatus then reports exactly that.
    When the rpc fails the error is thrown and nothing is written. *)
Theorem disable2FA_clears (userId : string) (t : Sql.table) :
  let t' := (disable2FA None userId t).2 in
  (disable2FA None userId t).1 = Ok true /\
  (forall k, t' !! k = if decide (k = userId) then (fun _ => cleared) <$> t !! k
                       else t !! k) /\
  (forall row, t !! userId = Some row ->
               get2FAStatus None userId t' = Ok (mk_status false None None)) /\
  (forall error, disable2FA (Some error) userId t = (Throw error, t)).
Proof.
  cbv zeta. unfold disable2FA, Sql.disable_2fa. cbn [fst snd].
  split; [reflexivity|]. split; [|split].
  - intros k. rewrite update_where_uid_lookup.
    destruct (decide (k = userId)); [|reflexivity].
    destruct (t !! k); reflexivity.
  - intros row Hrow. unfold get2FAStatus.
    rewrite update_where_uid_lookup, decide_True by reflexivity.
    rewrite Hrow. reflexivity.
  - reflexivity.
Qed.

Lemma disable2FA_clears_witness :
  get2FAStatus None "alice-uid" (disable2FA None "alice-uid" (user_profile Example.client)).2
  = Ok (mk_status false None None).
Proof.
  destruct (disable2FA_clears "alice-uid" (user_profile Example.client))
    as (_ & _ & Hstatus & _).
  apply (Hstatus (Sql.mk_profile true (Some "JBSWY3DPEHPK3PXP") (Some Example.codes))).
  vm_compute. reflexivity.
Defined.

(** X3: enable2FA, when the rpc is answered, returns true whether or not
    the user has a row. With a row, get2FAStatus then reports enabled, the
    given secret and the backup codes as they were; without a row nothing
    is stored and get2FAStatus throws. *)
Theorem enable2FA_status (userId secret : string) (t : Sql.table) :
  let t' := (enable2FA None userId secret t).2 in
  (enable2FA None userId secret t).1 = Ok true /\
  (forall row, t !! userId = Some row ->
               get2FAStatus None userId t'
               = Ok (mk_status true (Some secret) (Sql.backup_codes row))) /\
  (t !! userId = None ->
   t' = t /\ get2FAStatus None userId t' = Throw (PostgrestError "PGRST116")).
Proof.
  cbv zeta. unfold enable2FA, Sql.enable_2fa. cbn [fst snd].
  split; [reflexivity|]. split.
  - intros row Hrow. unfold get2FAStatus.
    rewrite update_where_uid_lookup, decide_True by reflexivity.
    rewrite Hrow. reflexivity.
  - intros Hnone. rewrite update_where_uid_missing by assumption.
    split; [reflexivity|]. unfold get2FAStatus. now rewrite Hnone.
Qed.

Lemma enable2FA_status_witness :
  get2FAStatus None "carol-uid"
    (enable2FA None "carol-uid" "JBSWY3DPEHPK3PXP" (user_profile Example.client)).2
  = Ok (mk_status true (Some "JBSWY3DPEHPK3PXP") None) /\
  get2FAStatus None "nobody"
    (enable2FA None "nobody" "JBSWY3DPEHPK3PXP" (user_profile Example.client)).2
  = Throw (PostgrestError "PGRST116").
Proof.
  split.
  - destruct (enable2FA_status "carol-uid" "JBSWY3DPEHPK3PXP" (user_profile Example.client))
      as (_ & Hrow & _).
    apply (Hrow (Sql.mk_profile false None None)). vm_compute. reflexivity.
  - destruct (enable2FA_status "nobody" "JBSWY3DPEHPK3PXP" (user_profile Example.client))
      as (_ & _ & Hnone).
    apply Hnone. vm_compute. reflexivity.
Defined.

(** X4: the codes that generateBackupCodes returns are the codes that it
    stores: they replace the stored set of a user with a row, the secret
    and the enabled flag are kept, and get2FAStatus reports them. *)
Theorem generateBackupCodes_stored (random : nat -> Q) (userId : string)
    (t : Sql.table) (row : Sql.user_profile) :
  t !! userId = Some row ->
  exists codes t',
    generateBackupCodes None random userId t = (Ok codes, t') /\
    t' !! userId = Some (Sql.set_backup_codes (Some codes) row) /\
    get2FAStatus None userId t'
    = Ok (mk_status (Sql.two_factor_enabled row) (Sql.two_factor_secret row) (Some codes)).
Proof.
  intros Hrow. unfold generateBackupCodes, Sql.generate_backup_codes.
  eexists _, _. split; [reflexivity|].
  assert (forall codes,
             Sql.update_where_uid userId (Sql.set_backup_codes (Some codes)) t !! userId
             = Some (Sql.set_backup_codes (Some codes) row)) as Hlookup.
  { intros codes. rewrite update_where_uid_lookup, decide_True by reflexivity.
    now rewrite Hrow. }
  split; [apply Hlookup|].
  unfold get2FAStatus. rewrite Hlookup. cbn. now rewrite orb_false_r.
Qed.

Lemma generateBackupCodes_stored_witness :
  exists codes t',
    generateBackupCodes None (fun _ => 1 # 2) "alice-uid" (user_profile Example.client)
    = (Ok codes, t') /\
    get2FAStatus None "alice-uid" t'
    = Ok (mk_status true (Some "JBSWY3DPEHPK3PXP") (Some codes)).
Proof.
  destruct (generateBackupCodes_stored (fun _ => 1 # 2) "alice-uid"
              (user_profile Example.client)
              (Sql.mk_profile true (Some "JBSWY3DPEHPK3PXP") (Some Example.codes)))
    as (codes & t' & Hcall & _ & Hstatus).
  - vm_compute. reflexivity.
  - exists codes, t'. split; assumption.
Defined.

End TwoFactorStatus.

Section VerifyOtp.

Import TwoFactorService.



(** X6: a six-character code equal to the TOTP of the stored secret is
    accepted by verifyOTP without the rpc: the answer is true also when the
    rpc would fail, and the table, backup codes included, is untouched. *)
Theorem verifyOTP_valid_totp (hotp : string -> Z -> Result string)
    (f : Faults) (userId otp : string) (now : Z)
    (t : Sql.table) (row : Sql.user_profile) (secret : string) :
  select_error f = None ->
  t !! userId = Some row -> Sql.two_factor_secret row = Some secret ->
  truthy secret = true -> String.length otp = 6%nat ->
  generateTOTP hotp secret now = Ok otp ->
  verifyOTP hotp f userId otp now t = (Ok true, t).
Proof.
  intros Hselect Hrow Hsecret Htruthy Hlen Hgen.
  unfold verifyOTP, verifyOTP_body. rewrite Hlen. cbn [Nat.eqb].
  unfold select_two_factor_secret. rewrite Hselect, Hrow. cbn. rewrite Hsecret, Htruthy.
  rewrite verifyTOTP_spec, Hgen, String.eqb_refl. reflexivity.
Qed.

Lemma verifyOTP_valid_totp_witness :
  verifyOTP Example.totp (mk_faults None (Some (PostgrestError "Network request failed")))
    "alice-uid" "482913" 0 (user_profile Example.client)
  = (Ok true, user_profile Example.client).
Proof.
  apply (verifyOTP_valid_totp Example.totp _ "alice-uid" "482913" 0%Z
           (user_profile Example.client)
           (Sql.mk_profile true (Some "JBSWY3DPEHPK3PXP") (Some Example.codes))
           "JBSWY3DPEHPK3PXP"); vm_compute; reflexivity.
Defined.

(** X7: when the generator throws on the stored secret, verifyOTP refuses
    every six-character code without asking the server, whatever the rpc
    would answer. *)
Theorem verifyOTP_unusable_secret (hotp : string -> Z -> Result string)
    (f : Faults) (userId otp : string) (now : Z)
    (t : Sql.table) (row : Sql.user_profile) (secret : string) (error : Error) :
  select_error f = None ->
  t !! userId = Some row -> Sql.two_factor_secret row = Some secret ->
  truthy secret = true -> String.length otp = 6%nat ->
  generateTOTP hotp secret now = Throw error ->
  verifyOTP hotp f userId otp now t = (Ok false, t).
Proof.
  intros Hselect Hrow Hsecret Htruthy Hlen Hgen.
  unfold verifyOTP, verifyOTP_body. rewrite Hlen. cbn [Nat.eqb].
  unfold select_two_factor_secret. rewrite Hselect, Hrow. cbn. rewrite Hsecret, Htruthy.
  rewrite verifyTOTP_spec, Hgen. reflexivity.
Qed.

Lemma verifyOTP_unusable_secret_witness :
  let t := <[ "dave-uid" := Sql.mk_profile true (Some "not base32") None ]>
             (user_profile Example.client) in
  verifyOTP Example.totp no_fault "dave-uid" "482913" 0 t = (Ok false, t).
Proof.
  cbv zeta.
  apply (verifyOTP_unusable_secret Example.totp no_fault "dave-uid" "482913" 0%Z _
           (Sql.mk_profile true (Some "not base32") None) "not base32"
           (LibraryError "Invalid base32 character")); vm_compute; reflexivity.
Defined.

(** X8: when the rpc fails verifyOTP writes nothing, and it answers true
    only for a six-character code that is the TOTP of the stored secret. *)
Theorem verifyOTP_rpc_down (hotp : string -> Z -> Result string)
    (f : Faults) (userId otp : string) (now : Z)
    (t : Sql.table) (error : Error) :
  rpc_error f = Some error ->
  (verifyOTP hotp f userId otp now t).2 = t /\
  ((verifyOTP hotp f userId otp now t).1 = Ok true ->
   String.length otp = 6%nat /\
   exists row secret,
     t !! userId = Some row /\ Sql.two_factor_secret row = Some secret /\
     generateTOTP hotp secret now = Ok otp).
Proof.
  intros Hrpc. unfold verifyOTP, verifyOTP_body. rewrite Hrpc.
  destruct (Nat.eqb_spec (String.length otp) 6) as [Hlen|Hlen];
    [|split; [reflexivity | discriminate]].
  unfold select_two_factor_secret.
  destruct (select_error f); [split; [reflexivity | discriminate]|].
  destruct (t !! userId) as [row|] eqn:Hrow; [|split; [reflexivity | discriminate]].
  cbn. destruct (Sql.two_factor_secret row) as [secret|] eqn:Hsecret;
    [|split; [reflexivity | discriminate]].
  destruct (truthy secret); [|split; [reflexivity | discriminate]].
  rewrite verifyTOTP_spec.
  destruct (generateTOTP hotp secret now) as [generated|e] eqn:Hgen;
    [|split; [reflexivity | discriminate]].
  destruct (String.eqb_spec otp generated) as [->|Hne];
    [|split; [reflexivity | discriminate]].
  split; [reflexivity|]. intros _. split; [assumption|].
  exists row, secret. repeat split; assumption.
Qed.

Lemma verifyOTP_rpc_down_witness :
  let f := mk_faults None (Some (PostgrestError "Network request failed")) in
  (verifyOTP Example.totp f "alice-uid" "11111111" 0 (user_profile Example.client)).2
  = user_profile Example.client /\
  (verifyOTP Example.totp f "alice-uid" "11111111" 0 (user_profile Example.client)).1
  = Ok false.
Proof.
  cbv zeta.
  destruct (verifyOTP_rpc_down Example.totp
              (mk_faults None (Some (PostgrestError "Network request failed")))
              "alice-uid" "11111111" 0%Z (user_profile Example.client)
              (PostgrestError "Network request failed") eq_refl) as [Htable _].
  split; [exact Htable | vm_compute; reflexivity].
Defined.

End VerifyOtp.

(** ** The biometric credentials *)

Lemma authenticateWithBiometric_spec (w : World) :
  BiometricService.authenticateWithBiometric w
  = if negb (BiometricService.isBiometricEnabled w) then (Ok None, w)
    else if negb (BiometricService.isAvailable w)
         then (Ok None,
               alert "Biometric Not Available"
                 "Biometric authentication is not available. Please use your email and password."
                 w)
         else if negb (challenge (device w)) then (Ok None, w)
              else (Ok (stored_credentials (device w)), w).
Proof.
  unfold BiometricService.authenticateWithBiometric, bind, read, run, ret.
  destruct (BiometricService.isBiometricEnabled w); [|reflexivity]. cbn [negb].
  destruct (BiometricService.isAvailable w); [|reflexivity]. cbn [negb].
  destruct (challenge (device w)); reflexivity.
Qed.

Lemma enableBiometric_spec (email password : string) (w : World) :
  BiometricService.enableBiometric email password w
  = if negb (BiometricService.isAvailable w)
    then (Ok false,
          alert "Biometric Not Available"
            "Biometric authentication is not available on this device or not set up." w)
    else if negb (challenge (device w)) then (Ok false, w)
         else (Ok true,
               on_device (BiometricService.set_stored_enabled (Some "true"))
                 (on_device (BiometricService.set_stored_credentials
                               (Some (mk_credentials email password))) w)).
Proof.
  unfold BiometricService.enableBiometric, bind, read, run, ret.
  destruct (BiometricService.isAvailable w); [|reflexivity]. cbn [negb].
  destruct (challenge (device w)); reflexivity.
Qed.

(** X9: where biometrics are available and the challenge succeeds,
    enableBiometric stores the email and the password it is given and the
    flag; authenticateWithBiometric then gives the same two back. *)
Theorem enableBiometric_round_trip (w : World) (email password : string) :
  BiometricService.isAvailable w = true -> challenge (device w) = true ->
  let w1 := world_of (BiometricService.enableBiometric email password w) in
  result_of (BiometricService.enableBiometric email password w) = Ok true /\
  BiometricService.isBiometricEnabled w1 = true /\
  BiometricService.authenticateWithBiometric w1
  = (Ok (Some (mk_credentials email password)), w1).
Proof.
  intros Havailable Hchallenge. cbv zeta.
  rewrite enableBiometric_spec, Havailable, Hchallenge. cbn [negb world_of result_of fst snd].
  split; [reflexivity|]. split; [reflexivity|].
  rewrite authenticateWithBiometric_spec.
  unfold BiometricService.isBiometricEnabled, BiometricService.isAvailable in *.
  cbn in *. rewrite Havailable, Hchallenge. reflexivity.
Qed.

Lemma enableBiometric_round_trip_witness :
  let w1 := world_of (BiometricService.enableBiometric "carol@example.com" "hunter2"
                        Example.start) in
  BiometricService.authenticateWithBiometric w1
  = (Ok (Some (mk_credentials "carol@example.com" "hunter2")), w1).
Proof.
  cbv zeta.
  destruct (enableBiometric_round_trip Example.start "carol@example.com" "hunter2")
    as (_ & _ & Hback); [reflexivity | reflexivity | exact Hback].
Defined.

(** X10: after disableBiometric the flag and the credentials are gone
    from the secure store: authenticateWithBiometric gives nothing and
    raises no challenge alert, and signInWithBiometric returns false
    without any request to the identity provider. *)
Theorem disableBiometric_forgets (w : World) :
  let w1 := world_of (BiometricService.disableBiometric w) in
  BiometricService.isBiometricEnabled w1 = false /\
  stored_credentials (device w1) = None /\
  BiometricService.authenticateWithBiometric w1 = (Ok None, w1) /\
  result_of (AuthContext.signInWithBiometric w1) = Ok false /\
  supabase (world_of (AuthContext.signInWithBiometric w1)) = supabase w.
Proof.
  cbv zeta. unfold BiometricService.disableBiometric, bind, run.
  cbn [world_of snd]. split; [reflexivity|]. split; [reflexivity|].
  split; [now rewrite authenticateWithBiometric_spec|].
  unfold AuthContext.signInWithBiometric, finally, try_, bind, run.
  rewrite authenticateWithBiometric_spec. cbn. split; reflexivity.
Qed.

(** X11: authenticateWithBiometric gives credentials in one case only:
    the flag is set, biometrics are available, the challenge succeeds and
    credentials are stored; then it gives the stored ones. It never
    writes to the secure store and sends nothing. *)
Theorem authenticateWithBiometric_grants (w : World) (c : BiometricCredentials) :
  (result_of (BiometricService.authenticateWithBiometric w) = Ok (Some c) <->
   BiometricService.isBiometricEnabled w = true /\
   BiometricService.isAvailable w = true /\
   challenge (device w) = true /\
   stored_credentials (device w) = Some c) /\
  device (world_of (BiometricService.authenticateWithBiometric w)) = device w /\
  supabase (world_of (BiometricService.authenticateWithBiometric w)) = supabase w.
Proof.
  rewrite authenticateWithBiometric_spec.
  destruct (BiometricService.isBiometricEnabled w),
           (BiometricService.isAvailable w),
           (challenge (device w)); cbn;
    (split; [split; [intros [=] | intros (? & ? & ? & ?)]; try discriminate;
             try (repeat split; congruence)
            | split; reflexivity]).
Qed.

Lemma context_enableBiometric_spec (email password : string) (w : World) :
  AuthContext.enableBiometric email password w
  = let '(r, w1) := BiometricService.enableBiometric email password w in
    match r, user (auth w1) with
    | Ok true, Some u =>
        (Ok true, on_auth (set_user (Some (AuthContext.with_biometric_enabled true u))) w1)
    | Ok b, _ => (Ok b, w1)
    | Throw _, _ => (Ok false, w1)
    end.
Proof.
  unfold AuthContext.enableBiometric, try_, bind, read, run, ret.
  rewrite enableBiometric_spec.
  destruct (negb (BiometricService.isAvailable w)); [reflexivity|].
  destruct (negb (challenge (device w))); [reflexivity|].
  cbn. destruct (user (auth w)); reflexivity.
Qed.

(** X12: enableBiometric of the context sends nothing to the identity
    provider: the password is stored as given. With a password that the
    provider does not accept for the email, the biometric login is set up
    all the same, and signInWithBiometric then asks for the sign-in,
    returns false, and leaves the session as it was and the flag
    isBiometricLogin lowered. *)
Theorem enableBiometric_stores_unchecked_password (w : World) (email password : string) :
  let w1 := world_of (AuthContext.enableBiometric email password w) in
  supabase w1 = supabase w /\
  (BiometricService.isAvailable w = true -> challenge (device w) = true ->
   (forall u, accounts (supabase w) !! email <> Some (password, u)) ->
   let w2 := world_of (AuthContext.signInWithBiometric w1) in
   result_of (AuthContext.enableBiometric email password w) = Ok true /\
   stored_credentials (device w1) = Some (mk_credentials email password) /\
   result_of (AuthContext.signInWithBiometric w1) = Ok false /\
   calls (supabase w2)
   = (calls (supabase w) ++ [CallSignInWithPassword email password])%list /\
   session (supabase w2) = session (supabase w) /\
   isBiometricLogin (auth w2) = false /\
   loading (auth w2) = false).
Proof.
  cbv zeta. rewrite context_enableBiometric_spec, enableBiometric_spec. split.
  - destruct (negb (BiometricService.isAvailable w)); [reflexivity|].
    destruct (negb (challenge (device w))); [reflexivity|].
    cbn. destruct (user (auth w)); reflexivity.
  - intros Havailable Hchallenge Hacc. rewrite Havailable, Hchallenge. cbn [negb].
    set (stored := on_device (BiometricService.set_stored_enabled (Some "true"))
                     (on_device (BiometricService.set_stored_credentials
                                   (Some (mk_credentials email password))) w)).
    assert (exists w1,
               (let '(r, w1) := (Ok true, stored) in
                match r, user (auth w1) with
                | Ok true, Some u =>
                    (Ok true,
                     on_auth (set_user (Some (AuthContext.with_biometric_enabled true u))) w1)
                | Ok b, _ => (Ok b, w1)
                | Throw _, _ => (Ok false, w1)
                end) = (Ok true, w1)
               /\ supabase w1 = supabase w /\ device w1 = device stored) as (w1 & -> & Hs & Hd).
    { cbn. destruct (user (auth w)); eexists; repeat split; reflexivity. }
    cbn [world_of result_of fst snd].
    unfold AuthContext.signInWithBiometric, finally, try_, bind, run, call.
    rewrite authenticateWithBiometric_spec.
    unfold BiometricService.isBiometricEnabled, BiometricService.isAvailable in *.
    subst stored. fields. rewrite Hd.
    cbn [BiometricService.set_stored_enabled
      BiometricService.set_stored_credentials stored_enabled stored_credentials
      hasHardware isEnrolled challenge].
    rewrite Havailable, Hchallenge. cbn [String.eqb negb Ascii.eqb Bool.eqb].
    cbn [cred_email cred_password].
    destruct (signInWithPassword_rejects email password
                (on_auth (set_isBiometricLogin true) (on_auth (set_loading true) w1)))
      as [error ->]; [fields; rewrite Hs; exact Hacc|].
    unfold throw, ret. fields. rewrite Hs. repeat split; reflexivity.
Qed.

Lemma enableBiometric_stores_unchecked_password_witness :
  let w1 := world_of (AuthContext.enableBiometric "carol@example.com" "wrong" Example.start) in
  let w2 := world_of (AuthContext.signInWithBiometric w1) in
  stored_credentials (device w1) = Some (mk_credentials "carol@example.com" "wrong") /\
  result_of (AuthContext.signInWithBiometric w1) = Ok false /\
  session (supabase w2) = None.
Proof.
  cbv zeta.
  destruct (enableBiometric_stores_unchecked_password Example.start "carol@example.com" "wrong")
    as [_ H].
  destruct H as (_ & Hstored & Hresult & _ & Hsession & _).
  - reflexivity.
  - reflexivity.
  - intros u. vm_compute. discriminate.
  - repeat split; assumption.
Defined.

(** X13: unless the biometric login is enabled, available and the
    challenge succeeds, signInWithBiometric returns false and makes no
    request: the client, the user and the flag isBiometricLogin are as
    before, and loading is lowered. *)
Theorem signInWithBiometric_needs_challenge (w : World) :
  BiometricService.isBiometricEnabled w && BiometricService.isAvailable w
  && challenge (device w) = false ->
  let w' := world_of (AuthContext.signInWithBiometric w) in
  result_of (AuthContext.signInWithBiometric w) = Ok false /\
  supabase w' = supabase w /\
  user (auth w') = user (auth w) /\
  isBiometricLogin (auth w') = isBiometricLogin (auth w) /\
  loading (auth w') = false.
Proof.
  intros Hno. cbv zeta.
  unfold AuthContext.signInWithBiometric, finally, try_, bind, run.
  rewrite authenticateWithBiometric_spec.
  unfold BiometricService.isBiometricEnabled, BiometricService.isAvailable in *.
  fields.
  destruct (match stored_enabled (device w) with
            | Some enabled => String.eqb enabled "true"
            | None => false
            end); [|cbn; repeat split; reflexivity].
  destruct (hasHardware (device w) && isEnrolled (device w));
    [|cbn; repeat split; reflexivity].
  cbn in Hno. rewrite Hno. cbn. repeat split; reflexivity.
Qed.

Lemma signInWithBiometric_needs_challenge_witness :
  let w := on_device (fun d => mk_device (stored_enabled d) (stored_credentials d)
                                 (hasHardware d) (isEnrolled d) false) Example.start in
  result_of (AuthContext.signInWithBiometric w) = Ok false /\
  calls (supabase (world_of (AuthContext.signInWithBiometric w))) = [].
Proof.
  cbv zeta.
  destruct (signInWithBiometric_needs_challenge
              (on_device (fun d => mk_device (stored_enabled d) (stored_credentials d)
                                     (hasHardware d) (isEnrolled d) false) Example.start))
    as (Hresult & Hclient & _); [reflexivity|].
  split; [exact Hresult|]. rewrite Hclient. reflexivity.
Defined.

(** ** The listener and the user's data *)

(** X14: the listener raises the prompt of the second factor on no event
    but SIGNED_IN, and then for the user of the session, whose row has the
    second factor enabled. A token refresh or a user update with a
    session changes nothing at all. *)
Theorem subscriber_prompts_on_sign_in_only (event : AuthChangeEvent)
    (s : option AuthUser) (w : World) (p : string * bool) :
  (pending2FA (auth (AuthContext.subscriber event s w)) = Some p ->
   pending2FA (auth w) = Some p \/
   (event = SIGNED_IN /\
    exists u row, s = Some u /\ p = (id u, true) /\
                  Supabase.select_single (id u) w = Data row /\
                  Sql.two_factor_enabled row = true)) /\
  (forall u, s = Some u -> truthy (id u) = true ->
             event = TOKEN_REFRESHED \/ event = USER_UPDATED ->
             AuthContext.subscriber event s w = w).
Proof.
  unfold AuthContext.subscriber, AuthContext.onAuthStateChange_callback. cbn [suppress2FA
    isBiometricLogin AuthContext.initial negb].
  split.
  - destruct s as [u|]; [|cbn; discriminate].
    destruct (truthy (id u)); [|cbn; discriminate].
    assert (forall row, Supabase.select_single (id u) w = Data row ->
              pending2FA (auth (AuthContext.fetchUserData (id u) true
                                  (on_auth (set_pending2FA None) w))) = Some p -> False)
      as Hfetched.
    { intros row _ H.
      destruct (fetchUserData_frame (id u) true (on_auth (set_pending2FA None) w))
        as [_ Hp]. rewrite Hp in H. discriminate H. }
    destruct event; try (intros H; left; exact H);
      (destruct (Supabase.select_single (id u) w) as [row|e] eqn:Hrow;
       [|intros H; left;
         destruct (fetchUserData_frame (id u) true w) as [_ Hp]; now rewrite Hp in H]);
      destruct (Sql.two_factor_enabled row) eqn:H2fa; cbn [andb is_SIGNED_IN];
      try (intros H; exfalso; exact (Hfetched row eq_refl H)).
    cbn. intros [= <-]. right. split; [reflexivity|].
    exists u, row. repeat split; assumption.
  - intros u -> Hid [-> | ->]; now rewrite Hid.
Qed.

Lemma subscriber_prompts_on_sign_in_only_witness :
  pending2FA (auth (AuthContext.subscriber SIGNED_IN (Some Example.alice) Example.start))
  = Some ("alice-uid", true) /\
  AuthContext.subscriber TOKEN_REFRESHED (Some Example.alice) Example.start = Example.start.
Proof.
  destruct (subscriber_prompts_on_sign_in_only TOKEN_REFRESHED (Some Example.alice)
              Example.start ("alice-uid", true)) as [_ Hrefresh].
  destruct (subscriber_prompts_on_sign_in_only SIGNED_IN (Some Example.alice)
              Example.start ("alice-uid", true)) as [Hprompt _].
  split.
  - destruct Hprompt as [Hold | (_ & u & row & _ & Hp & _)].
    + vm_compute. reflexivity.
    + vm_compute in Hold. discriminate Hold.
    + vm_compute. reflexivity.
  - apply (Hrefresh Example.alice); [reflexivity | reflexivity | left; reflexivity].
Defined.



(** X16: signInWith2FA keeps the email and the password in
    pending2FACredentials exactly when the provider accepts them, and a
    session is then established; when it refuses, the error is thrown, the
    credentials are cleared and the session is as before. *)
Theorem signInWith2FA_retains_credentials (w : World) (email password : string) :
  let w' := world_of (AuthContext.signInWith2FA email password w) in
  (forall u, accounts (supabase w) !! email = Some (password, u) ->
             result_of (AuthContext.signInWith2FA email password w) = Ok u /\
             pending2FACredentials (auth w') = Some (email, password) /\
             session (supabase w') = Some u) /\
  ((forall u, accounts (supabase w) !! email <> Some (password, u)) ->
   (exists error, result_of (AuthContext.signInWith2FA email password w) = Throw error) /\
   pending2FACredentials (auth w') = None /\
   session (supabase w') = session (supabase w)).
Proof.
  cbv zeta. unfold AuthContext.signInWith2FA, bind, run, call. split.
  - intros u Hacc.
    rewrite (signInWithPassword_accepts email password u) by (fields; exact Hacc).
    match goal with
    | |- context [AuthContext.subscriber ?e ?s ?x] =>
        destruct (subscriber_frame e s x) as (Hs & _ & _ & _ & Hc & _);
        generalize dependent (AuthContext.subscriber e s x); intros w1 Hs Hc
    end.
    unfold ret. fields. rewrite Hs, Hc. repeat split; reflexivity.
  - intros Hacc.
    destruct (signInWithPassword_rejects email password
                (on_auth (set_pending2FACredentials (Some (email, password))) w))
      as [error ->]; [fields; exact Hacc|].
    unfold throw. fields. split; [eexists; reflexivity|]. split; reflexivity.
Qed.

Lemma signInWith2FA_retains_credentials_witness :
  pending2FACredentials
    (auth (world_of (AuthContext.signInWith2FA "alice@example.com" "correct-password"
                       Example.start)))
  = Some ("alice@example.com", "correct-password") /\
  pending2FACredentials
    (auth (world_of (AuthContext.signInWith2FA "alice@example.com" "guess" Example.start)))
  = None.
Proof.
  destruct (signInWith2FA_retains_credentials Example.start "alice@example.com"
              "correct-password") as [Hok _].
  destruct (signInWith2FA_retains_credentials Example.start "alice@example.com" "guess")
    as [_ Hno].
  split.
  - apply (Hok Example.alice). vm_compute. reflexivity.
  - apply Hno. intros u. vm_compute. discriminate.
Defined.

(** ** The login form *)

(** X17: with an empty email or an empty password handleLogin raises
    "Please fill in all fields" and does nothing else: no request is
    sent. *)
Theorem handleLogin_empty_field (w : World) (email password : string) :
  truthy email && truthy password = false ->
  LoginScreen.handleLogin (typed email password w)
  = (Ok tt, alert "Alert" "Please fill in all fields" (typed email password w)).
Proof.
  intros Hempty. unfold LoginScreen.handleLogin, bind, read, typed.
  cbn [login on_login login_email login_password].
  rewrite <- negb_andb, Hempty. reflexivity.
Qed.

Lemma handleLogin_empty_field_witness :
  LoginScreen.handleLogin (typed "alice@example.com" "" Example.start)
  = (Ok tt, alert "Alert" "Please fill in all fields"
              (typed "alice@example.com" "" Example.start)).
Proof. apply handleLogin_empty_field. reflexivity. Defined.

Lemma signInWithPassword_refusal (email password : string) (w : World) :
  (forall u, accounts (supabase w) !! email <> Some (password, u)) ->
  Supabase.signInWithPassword AuthContext.subscriber email password w
  = (Fail (AuthError "Invalid login credentials"),
     Supabase.log (CallSignInWithPassword email password) w).
Proof.
  intros Hacc. unfold Supabase.signInWithPassword. fields.
  destruct (accounts (supabase w) !! email) as [[expected u]|] eqn:Hlookup; [|reflexivity].
  destruct (String.eqb_spec expected password) as [->|Hne]; [|reflexivity].
  now destruct (Hacc u).
Qed.

(** X18: with a password that the provider refuses handleLogin makes the
    sign-in request and no other, sends no mail and shows the provider's
    message; the session is as before, the email modal stays closed, the
    overlay is hidden, and suppress2FA is left raised. *)
Theorem handleLogin_refused_password (w : World) (email password : string) :
  truthy email = true -> truthy password = true ->
  (forall u, accounts (supabase w) !! email <> Some (password, u)) ->
  let w' := world_of (LoginScreen.handleLogin (typed email password w)) in
  result_of (LoginScreen.handleLogin (typed email password w)) = Ok tt /\
  calls (supabase w') = (calls (supabase w) ++ [CallSignInWithPassword email password])%list /\
  session (supabase w') = session (supabase w) /\
  sent (supabase w') = sent (supabase w) /\
  alerts w' = (alerts w ++ [("Alert", "Invalid login credentials")])%list /\
  showEmailOtpModal (login w') = showEmailOtpModal (login w) /\
  showVerifyingOverlay (login w') = false /\
  suppress2FA (auth w') = true.
Proof.
  intros Hemail Hpassword Hacc. cbv zeta.
  unfold LoginScreen.handleLogin, bind, read, typed.
  cbn [login on_login login_email login_password].
  rewrite Hemail, Hpassword. cbn [negb orb].
  unfold try_, bind, run, call.
  cbn [LoginScreen.optional AuthContext.value AuthContext.value_beginEmailOtpFlow].
  unfold AuthContext.beginEmailOtpFlow.
  rewrite signInWithPassword_refusal by (fields; exact Hacc).
  cbn [throw_if_error]. unfold throw. cbn [message_of]. fields.
  repeat split; reflexivity.
Qed.

Lemma handleLogin_refused_password_witness :
  let w' := world_of (LoginScreen.handleLogin
                        (typed "alice@example.com" "guess" Example.start)) in
  session (supabase w') = None /\
  alerts w' = [("Alert", "Invalid login credentials")] /\
  suppress2FA (auth w') = true.
Proof.
  cbv zeta.
  destruct (handleLogin_refused_password Example.start "alice@example.com" "guess")
    as (_ & _ & Hsession & _ & Halerts & _ & _ & Hflag).
  - reflexivity.
  - reflexivity.
  - intros u. vm_compute. discriminate.
  - repeat split; assumption.
Defined.

(** ** The emailed code *)

Lemma truthy_nonempty (s : string) : (0 < String.length s)%nat -> truthy s = true.
Proof. destruct s; cbn; [lia | reflexivity]. Qed.

Lemma verifyOtp_refusal (email token : string) (w : World) :
  accounts (supabase w) !! email = None
  \/ Supabase.latest_code email (sent (supabase w)) <> Some token ->
  Supabase.verifyOtp AuthContext.subscriber email token w
  = (Fail (AuthError "Token has expired or is invalid"),
     Supabase.log (CallVerifyOtp email token) w).
Proof.
  intros Hno. unfold Supabase.verifyOtp. fields.
  destruct (accounts (supabase w) !! email) as [[expected u]|] eqn:Hacc; [|reflexivity].
  destruct Hno as [Hnone | Hcode]; [discriminate Hnone|].
  destruct (Supabase.latest_code email (sent (supabase w))) as [code|]; [|reflexivity].
  destruct (String.eqb_spec code token) as [->|Hne]; [|reflexivity].
  now destruct Hcode.
Qed.

(** X19: handleVerifyEmailOtp sends a code of fewer than six characters
    nowhere and asks for six digits. A longer code that is not the latest
    one mailed to the address is sent and refused: the provider's message
    is shown, the session and the state of AuthProvider are as before, and
    the modal stays as it is. *)
Theorem handleVerifyEmailOtp_refused (w : World) :
  let email := login_email (login w) in
  let code := emailOtpCode (login w) in
  let w' := world_of (LoginScreen.handleVerifyEmailOtp w) in
  ((String.length code < 6)%nat ->
   LoginScreen.handleVerifyEmailOtp w
   = (Ok tt, alert "Error" "Please enter the 6-digit code sent to your email" w)) /\
  ((6 <= String.length code)%nat ->
   accounts (supabase w) !! email = None
   \/ Supabase.latest_code email (sent (supabase w)) <> Some code ->
   result_of (LoginScreen.handleVerifyEmailOtp w) = Ok tt /\
   calls (supabase w') = (calls (supabase w) ++ [CallVerifyOtp email code])%list /\
   session (supabase w') = session (supabase w) /\
   auth w' = auth w /\
   alerts w' = (alerts w ++ [("Invalid Code", "Token has expired or is invalid")])%list /\
   showEmailOtpModal (login w') = showEmailOtpModal (login w) /\
   verifyingEmailOtp (login w') = false).
Proof.
  cbv zeta. unfold LoginScreen.handleVerifyEmailOtp, bind, read. split.
  - intros Hshort. apply Nat.ltb_lt in Hshort. rewrite Hshort, orb_true_r. reflexivity.
  - intros Hlong Hno.
    rewrite (truthy_nonempty (emailOtpCode (login w))) by lia.
    destruct (Nat.ltb_spec (String.length (emailOtpCode (login w))) 6) as [|_]; [lia|].
    cbn [negb orb]. unfold try_, bind, run, call.
    rewrite verifyOtp_refusal by (fields; exact Hno).
    cbn [throw_if_error]. unfold throw. cbn [message_of truthy String.eqb negb].
    fields. repeat split; reflexivity.
Qed.

Lemma handleVerifyEmailOtp_refused_witness :
  let w := on_login (set_emailOtpCode "000000") email_code_pending in
  let w' := world_of (LoginScreen.handleVerifyEmailOtp w) in
  session (supabase w') = None /\
  alerts w' = [("Invalid Code", "Token has expired or is invalid")] /\
  LoginScreen.handleVerifyEmailOtp (on_login (set_emailOtpCode "1357") email_code_pending)
  = (Ok tt, alert "Error" "Please enter the 6-digit code sent to your email"
              (on_login (set_emailOtpCode "1357") email_code_pending)).
Proof.
  cbv zeta.
  destruct (handleVerifyEmailOtp_refused
              (on_login (set_emailOtpCode "000000") email_code_pending)) as [_ Hwrong].
  destruct (handleVerifyEmailOtp_refused
              (on_login (set_emailOtpCode "1357") email_code_pending)) as [Hshort _].
  destruct Hwrong as (_ & _ & Hsession & _ & Halerts & _).
  - vm_compute. lia.
  - right. vm_compute. discriminate.
  - split; [rewrite Hsession; vm_compute; reflexivity|].
    split; [rewrite Halerts; vm_compute; reflexivity|].
    apply Hshort. vm_compute. lia.
Defined.

Lemma verifyOtp_acceptance (email token : string) (u : AuthUser) (expected : string)
    (w : World) :
  accounts (supabase w) !! email = Some (expected, u) ->
  Supabase.latest_code email (sent (supabase w)) = Some token ->
  Supabase.verifyOtp AuthContext.subscriber email token w
  = (Data u,
     AuthContext.subscriber SIGNED_IN (Some u)
       (on_supabase (fun c => set_session (Some u)
                                (set_sent (filter (fun x => x.1 ≠ email) (sent c)) c))
          (Supabase.log (CallVerifyOtp email token) w))).
Proof.
  intros Hacc Hcode. unfold Supabase.verifyOtp. fields.
  rewrite Hacc, Hcode, String.eqb_refl. reflexivity.
Qed.

Lemma latest_code_filtered (email : string) (l : list (string * string)) :
  Supabase.latest_code email (filter (fun x => x.1 ≠ email) l) = None.
Proof.
  induction l as [|[e code] l IH]; [reflexivity|].
  rewrite filter_cons. cbn [fst]. destruct (decide (e ≠ email)) as [Hne|Heq].
  - cbn. apply String.eqb_neq in Hne. now rewrite Hne.
  - exact IH.
Qed.

(** X20: the latest code mailed to the address, of six characters or
    more, is accepted once: a session is established for the user, the
    modal is closed, the field is emptied and the code cannot be used
    again. With a readable row the listener then decides: the second
    factor enabled, it raises the prompt and leaves the user unset;
    disabled, it sets the user without a prompt. *)
Theorem handleVerifyEmailOtp_accepted (w : World) (u : AuthUser) (expected : string)
    (row : Sql.user_profile) :
  let email := login_email (login w) in
  let code := emailOtpCode (login w) in
  (6 <= String.length code)%nat ->
  accounts (supabase w) !! email = Some (expected, u) ->
  Supabase.latest_code email (sent (supabase w)) = Some code ->
  AuthContext.no_userId (id u) = false ->
  postgrest_up (supabase w) = true -> user_profile (supabase w) !! id u = Some row ->
  let w' := world_of (LoginScreen.handleVerifyEmailOtp w) in
  session (supabase w') = Some u /\
  Supabase.latest_code email (sent (supabase w')) = None /\
  showEmailOtpModal (login w') = false /\
  emailOtpCode (login w') = "" /\
  (if Sql.two_factor_enabled row
   then pending2FA (auth w') = Some (id u, true) /\ user (auth w') = user (auth w)
   else pending2FA (auth w') = None /\
        user (auth w')
        = Some (mk_user (id u) (Some (user_email u)) false
                  (BiometricService.isBiometricEnabled w))).
Proof.
  cbv zeta. intros Hlong Hacc Hcode Hid Hup Hrow.
  assert (truthy (id u) = true) as Htruthy.
  { unfold AuthContext.no_userId in Hid. apply orb_false_iff in Hid as [Hid _].
    now apply negb_false_iff in Hid. }
  unfold LoginScreen.handleVerifyEmailOtp, bind, read.
  rewrite (truthy_nonempty (emailOtpCode (login w))) by lia.
  destruct (Nat.ltb_spec (String.length (emailOtpCode (login w))) 6) as [|_]; [lia|].
  cbn [negb orb]. unfold try_, bind, run, call.
  rewrite (verifyOtp_acceptance _ _ u expected) by (fields; assumption).
  set (w1 := on_supabase _ (Supabase.log _ (on_login (set_verifyingEmailOtp true) w))).
  assert (Supabase.select_single (id u) w1 = Data row) as Hselect.
  { unfold Supabase.select_single. subst w1. fields. now rewrite Hup, Hrow. }
  cbn [throw_if_error ret].
  destruct (Sql.two_factor_enabled row) eqn:H2fa.
  - rewrite (subscriber_prompts w1 u row Htruthy Hselect H2fa).
    subst w1. fields. rewrite latest_code_filtered. repeat split; reflexivity.
  - unfold AuthContext.subscriber, AuthContext.onAuthStateChange_callback.
    cbn [suppress2FA isBiometricLogin AuthContext.initial].
    rewrite Htruthy, Hselect, H2fa. cbn [andb].
    unfold AuthContext.fetchUserData. rewrite Hid.
    assert (Supabase.select_single (id u)
              (on_auth (set_loading true) (on_auth (set_pending2FA None) w1)) = Data row)
      as ->.
    { unfold Supabase.select_single in *. fields. exact Hselect. }
    unfold Supabase.getSession, BiometricService.isBiometricEnabled.
    subst w1. fields. rewrite latest_code_filtered, H2fa. repeat split; reflexivity.
Qed.

Lemma handleVerifyEmailOtp_accepted_witness :
  let w := on_login (set_emailOtpCode "135790") email_code_pending in
  let w' := world_of (LoginScreen.handleVerifyEmailOtp w) in
  session (supabase w') = Some Example.alice /\
  pending2FA (auth w') = Some ("alice-uid", true) /\
  user (auth w') = None.
Proof.
  cbv zeta.
  destruct (handleVerifyEmailOtp_accepted
              (on_login (set_emailOtpCode "135790") email_code_pending)
              Example.alice "correct-password"
              (Sql.mk_profile true (Some "JBSWY3DPEHPK3PXP") (Some Example.codes)))
    as (Hsession & _ & _ & _ & Hprompt).
  - vm_compute. lia.
  - vm_compute. reflexivity.
  - vm_compute. reflexivity.
  - reflexivity.
  - reflexivity.
  - vm_compute. reflexivity.
  - cbn [Sql.two_factor_enabled] in Hprompt. destruct Hprompt as [Hp Hu].
    split; [exact Hsession|]. split; [exact Hp|]. rewrite Hu. vm_compute. reflexivity.
Defined.

(** ** The countdown of the cooldown *)

Lemma fire_fire_pair (n : nat) (l : LoginState) :
  (timers (LoginScreen.fire n l), resendSecondsLeft (LoginScreen.fire n l))
  = fire_pair n (timers l, resendSecondsLeft l).
Proof.
  revert l. induction n as [|n IH]; intros l; [reflexivity|].
  cbn [LoginScreen.fire fire_pair]. unfold LoginScreen.countdown.
  destruct (resendSecondsLeft l <=? 1)%Z; rewrite IH; reflexivity.
Qed.

Lemma countdown_of_tick (w : World) :
  countdown_of (LoginScreen.tick w) = tick_pair (countdown_of w).
Proof.
  unfold countdown_of, LoginScreen.tick, tick_pair. cbn [login on_login fst].
  apply fire_fire_pair.
Qed.

Lemma countdown_of_ticks (k : nat) (w : World) :
  countdown_of (LoginScreen.ticks k w) = ticks_pair k (countdown_of w).
Proof.
  revert w. induction k as [|k IH]; intros w; [reflexivity|].
  cbn [LoginScreen.ticks ticks_pair]. now rewrite IH, countdown_of_tick.
Qed.

Lemma ticks_pair_stopped (k : nat) (s : Z) : ticks_pair k (0%nat, s) = (0%nat, s).
Proof. induction k as [|k IH]; [reflexivity | exact IH]. Qed.

Lemma ticks_pair_single (k : nat) (s : Z) :
  (0 < s)%Z ->
  ticks_pair k (1%nat, s)
  = (if (Z.of_nat k <? s)%Z then 1%nat else 0%nat, Z.max 0 (s - Z.of_nat k)).
Proof.
  revert s. induction k as [|k IH]; intros s Hs.
  - cbn [ticks_pair]. destruct (Z.ltb_spec (Z.of_nat 0) s); [|lia]. f_equal. lia.
  - cbn [ticks_pair]. unfold tick_pair. cbn [fst fire_pair].
    destruct (Z.leb_spec s 1).
    + cbn [pred]. rewrite ticks_pair_stopped.
      destruct (Z.ltb_spec (Z.of_nat (S k)) s); [lia|]. f_equal. lia.
    + rewrite IH by lia.
      destruct (Z.ltb_spec (Z.of_nat k) (s - 1)), (Z.ltb_spec (Z.of_nat (S k)) s);
        try lia; f_equal; lia.
Qed.

(** X21: a cooldown started while no interval runs lasts thirty seconds:
    k seconds later the countdown shows 30 - k, never less than 0, and
    its interval runs until the thirtieth second and is then cleared. *)
Theorem cooldown_lasts_thirty_seconds (w : World) (k : nat) :
  timers (login w) = 0%nat ->
  let w' := LoginScreen.ticks k (LoginScreen.start_cooldown w) in
  resendSecondsLeft (login w') = Z.max 0 (30 - Z.of_nat k) /\
  timers (login w') = if (k <? 30)%nat then 1%nat else 0%nat.
Proof.
  intros Hnone. cbv zeta.
  pose proof (countdown_of_ticks k (LoginScreen.start_cooldown w)) as H.
  unfold countdown_of in H at 2. unfold LoginScreen.start_cooldown in H at 2 3.
  cbn [login on_login timers resendSecondsLeft set_timers set_resendSecondsLeft] in H.
  rewrite Hnone, ticks_pair_single in H by lia.
  unfold countdown_of in H. injection H as Htimers Hleft.
  split; [exact Hleft|]. rewrite Htimers.
  destruct (Z.ltb_spec (Z.of_nat k) 30), (Nat.ltb_spec k 30); try lia; reflexivity.
Qed.

Lemma cooldown_lasts_thirty_seconds_witness :
  resendSecondsLeft (login (LoginScreen.ticks 12 email_code_pending)) = 18%Z /\
  timers (login (LoginScreen.ticks 45 email_code_pending)) = 0%nat.
Proof.
  assert (email_code_pending
          = LoginScreen.start_cooldown
              (on_login (fun l => set_timers 0 (set_resendSecondsLeft 0 l)) email_code_pending))
    as Hstart by (vm_compute; reflexivity).
  rewrite Hstart. split.
  - apply (cooldown_lasts_thirty_seconds _ 12). reflexivity.
  - apply (cooldown_lasts_thirty_seconds _ 45). reflexivity.
Defined.

(** X22: a cooldown started while an earlier interval still runs is
    counted down by both: the countdown loses two seconds every second
    and reaches 0 after fifteen seconds. *)
Theorem cooldown_with_two_intervals (w : World) (k : nat) :
  timers (login w) = 1%nat -> (k <= 15)%nat ->
  resendSecondsLeft (login (LoginScreen.ticks k (LoginScreen.start_cooldown w)))
  = (30 - 2 * Z.of_nat k)%Z.
Proof.
  intros Hone Hk.
  pose proof (countdown_of_ticks k (LoginScreen.start_cooldown w)) as H.
  unfold countdown_of in H at 2. unfold LoginScreen.start_cooldown in H at 2 3.
  cbn [login on_login timers resendSecondsLeft set_timers set_resendSecondsLeft] in H.
  rewrite Hone in H. unfold countdown_of in H.
  apply (f_equal snd) in H. cbn [snd] in H. rewrite H.
  assert (forallb (fun k => (snd (ticks_pair k (2%nat, 30%Z)) =? 30 - 2 * Z.of_nat k)%Z)
            (seq 0 16) = true) as Hall by (vm_compute; reflexivity).
  rewrite forallb_forall in Hall. apply Z.eqb_eq, Hall, in_seq. lia.
Qed.

Lemma cooldown_with_two_intervals_witness :
  resendSecondsLeft
    (login (LoginScreen.ticks 15 (LoginScreen.start_cooldown email_code_pending))) = 0%Z.
Proof.
  apply (cooldown_with_two_intervals email_code_pending 15); [reflexivity | lia].
Defined.

(** X23: once the countdown is at 0, handleResendEmailOtp asks the
    provider for a new code for the address of the form. For a known
    address the code is mailed, "Code Sent" is shown and a cooldown of 30
    seconds starts with one more interval; for an unknown address the
    provider's message is shown and no cooldown starts. *)
Theorem handleResendEmailOtp_after_cooldown (w : World) :
  (resendSecondsLeft (login w) <= 0)%Z ->
  let email := login_email (login w) in
  let w' := world_of (LoginScreen.handleResendEmailOtp w) in
  calls (supabase w') = (calls (supabase w) ++ [CallSignInWithOtp email])%list /\
  sendingEmailOtp (login w') = false /\
  (is_Some (accounts (supabase w) !! email) ->
   sent (supabase w')
   = (email, mail (supabase w) (length (sent (supabase w)))) :: sent (supabase w) /\
   alerts w'
   = (alerts w ++ [("Code Sent", "We have resent the verification code to your email")])%list /\
   resendSecondsLeft (login w') = 30%Z /\
   timers (login w') = S (timers (login w))) /\
  (accounts (supabase w) !! email = None ->
   sent (supabase w') = sent (supabase w) /\
   alerts w' = (alerts w ++ [("Error", "Signups not allowed for otp")])%list /\
   resendSecondsLeft (login w') = resendSecondsLeft (login w) /\
   timers (login w') = timers (login w)).
Proof.
  intros Hzero. cbv zeta.
  unfold LoginScreen.handleResendEmailOtp, try_, bind, read, run, call.
  destruct (Z.ltb_spec 0 (resendSecondsLeft (login w))) as [|_]; [lia|].
  unfold Supabase.signInWithOtp. fields.
  destruct (accounts (supabase w) !! login_email (login w)) as [account|] eqn:Hacc.
  - cbn [throw_if_error ret]. unfold LoginScreen.start_cooldown. fields.
    split; [reflexivity|]. split; [reflexivity|]. split; [|intros [=]].
    intros _. repeat split; reflexivity.
  - cbn [throw_if_error]. unfold throw. cbn [message_of]. fields.
    split; [reflexivity|]. split; [reflexivity|]. split; [intros [? [=]]|].
    intros _. repeat split; reflexivity.
Qed.

Lemma handleResendEmailOtp_after_cooldown_witness :
  let w := LoginScreen.ticks 30 email_code_pending in
  let w' := world_of (LoginScreen.handleResendEmailOtp w) in
  resendSecondsLeft (login w') = 30%Z /\
  length (sent (supabase w')) = 2%nat.
Proof.
  cbv zeta.
  destruct (handleResendEmailOtp_after_cooldown (LoginScreen.ticks 30 email_code_pending))
    as (_ & _ & Hknown & _); [vm_compute; discriminate|].
  destruct Hknown as (Hsent & _ & Hleft & _); [vm_compute; eexists; reflexivity|].
  split; [exact Hleft|]. rewrite Hsent. vm_compute. reflexivity.
Defined.

(** ** The code fields *)

Lemma all_digits_remove_non_digits (t : string) :
  all_digits (LoginScreen.remove_non_digits t) = true.
Proof.
  induction t as [|c t IH]; [reflexivity|]. cbn [LoginScreen.remove_non_digits].
  destruct ((48 <=? nat_of_ascii c)%nat && (nat_of_ascii c <=? 57)%nat) eqn:Hc;
    [|exact IH].
  cbn [all_digits]. unfold is_digit. now rewrite Hc.
Qed.

Lemma remove_non_digits_fixed (t : string) :
  all_digits t = true -> LoginScreen.remove_non_digits t = t.
Proof.
  induction t as [|c t IH]; [reflexivity|]. cbn [all_digits LoginScreen.remove_non_digits].
  unfold is_digit. intros H. apply andb_true_iff in H as [Hc Ht].
  now rewrite Hc, IH.
Qed.

Lemma length_substring_0 (n : nat) (s : string) :
  (String.length (substring 0 n s) <= n)%nat.
Proof.
  revert s. induction n as [|n IH]; intros [|c s]; cbn; try lia.
  specialize (IH s). lia.
Qed.

Lemma substring_0_short (n : nat) (s : string) :
  (String.length s <= n)%nat -> substring 0 n s = s.
Proof.
  revert s. induction n as [|n IH]; intros [|c s] H; cbn in *; try reflexivity; try lia.
  rewrite IH; [reflexivity | lia].
Qed.

(** X24: what the email code field keeps of a text, typed or pasted, is
    its first six digits at most, in their order: digits only, six at
    most, unchanged when cleaned again, and the text itself when it is
    made of six digits or fewer. A paste without a digit, or of nothing,
    leaves the field as it is. *)
Theorem email_code_field_digits (t : string) (w : World) :
  let kept := LoginScreen.slice_0_6 (LoginScreen.remove_non_digits t) in
  emailOtpCode (login (LoginScreen.onChangeEmailOtp t w)) = kept /\
  all_digits kept = true /\
  (String.length kept <= 6)%nat /\
  LoginScreen.slice_0_6 (LoginScreen.remove_non_digits kept) = kept /\
  (all_digits t = true -> (String.length t <= 6)%nat -> kept = t) /\
  (LoginScreen.remove_non_digits t = "" ->
   LoginScreen.handlePasteEmailOtp (Some t) w = w) /\
  LoginScreen.handlePasteEmailOtp None w = w.
Proof.
  cbv zeta. unfold LoginScreen.slice_0_6.
  assert (all_digits (substring 0 6 (LoginScreen.remove_non_digits t)) = true) as Hdigits
    by apply all_digits_substring, all_digits_remove_non_digits.
  pose proof (length_substring_0 6 (LoginScreen.remove_non_digits t)) as Hlen.
  split; [reflexivity|]. split; [exact Hdigits|]. split; [exact Hlen|].
  split; [|split; [|split]].
  - rewrite remove_non_digits_fixed by exact Hdigits. now apply substring_0_short.
  - intros Ht Hshort. rewrite remove_non_digits_fixed by exact Ht.
    now apply substring_0_short.
  - intros Hnone. unfold LoginScreen.handlePasteEmailOtp, LoginScreen.slice_0_6.
    change (default "" (Some t)) with t. rewrite Hnone. reflexivity.
  - reflexivity.
Qed.

Lemma email_code_field_digits_witness :
  emailOtpCode (login (LoginScreen.onChangeEmailOtp "13-57 90 24" Example.start)) = "135790" /\
  LoginScreen.handlePasteEmailOtp (Some "no code") Example.start = Example.start.
Proof.
  destruct (email_code_field_digits "13-57 90 24" Example.start) as (Hkept & _).
  destruct (email_code_field_digits "no code" Example.start) as (_ & _ & _ & _ & _ & Hpaste & _).
  split; [rewrite Hkept; reflexivity | apply Hpaste; reflexivity].
Defined.

(** ** The code prompt of OTPVerification in TOTP mode *)

Lemma truthy_length_6 (code : string) :
  String.length code = 6%nat -> truthy code = true.
Proof. destruct code; [discriminate | reflexivity]. Qed.

(** X25: in TOTP mode, with the secret of the user readable, a
    six-character code is checked against the current code of the
    generator and nothing else: on a match onSuccess runs on the world as
    it was, otherwise "Invalid Code" is shown, and when the generator
    throws on the secret "Failed to verify code" is shown. The handler
    itself writes nothing to the table and calls no rpc. *)
Theorem handleVerifyOTP_totp_mode (hotp : string -> Z -> Result string) (now : Z)
    (userId : option string) (onSuccess : M unit) (code : string) (w : World)
    (current : string) (profile : Sql.user_profile) (secret : string) :
  OTPVerification.currentUserId userId w = Some current -> truthy current = true ->
  Supabase.select_single current w = Data profile ->
  Sql.two_factor_secret profile = Some secret -> truthy secret = true ->
  String.length code = 6%nat ->
  OTPVerification.handleVerifyOTP hotp now userId onSuccess false code w
  = (Ok tt,
     match TwoFactorService.generateTOTP hotp secret now with
     | Ok generated =>
         if String.eqb code generated then world_of (onSuccess w)
         else alert "Invalid Code" "The verification code is incorrect. Please try again." w
     | Throw _ => alert "Error" "Failed to verify code. Please try again." w
     end).
Proof.
  intros Hcurrent Htruthy Hprofile Hsecret Hsecret_truthy Hlen.
  unfold OTPVerification.handleVerifyOTP.
  rewrite (truthy_length_6 code Hlen), Hlen. cbn [negb andb Nat.eqb].
  assert (OTPVerification.check hotp now userId false code w
          = (match TwoFactorService.generateTOTP hotp secret now with
             | Ok generated => Ok (String.eqb code generated)
             | Throw error => Throw error
             end, w)) as Hcheck.
  { unfold OTPVerification.check, bind, read. cbn beta iota.
    rewrite Hcurrent, Htruthy. cbn [negb]. cbn beta iota. rewrite Hprofile, Hsecret.
    cbn [truthy_opt default from_option]. change (Datatypes.id secret) with secret.
    rewrite Hsecret_truthy. unfold lift. rewrite verifyTOTP_spec.
    destruct (TwoFactorService.generateTOTP hotp secret now); reflexivity. }
  unfold try_, bind. rewrite Hcheck.
  destruct (TwoFactorService.generateTOTP hotp secret now) as [generated|error];
    [|reflexivity].
  destruct (String.eqb code generated); reflexivity.
Qed.

Lemma handleVerifyOTP_totp_mode_witness :
  world_of (OTPVerification.handleVerifyOTP Example.totp 0 (Some "alice-uid")
              (run (alert "Verified" "")) false "482913" Example.start)
  = alert "Verified" "" Example.start /\
  world_of (OTPVerification.handleVerifyOTP Example.totp 0 (Some "alice-uid")
              (run (alert "Verified" "")) false "11111111" Example.start)
  = alert "Error" "Please enter a 6-digit verification code" Example.start.
Proof.
  split; [|reflexivity].
  rewrite (handleVerifyOTP_totp_mode Example.totp 0 (Some "alice-uid")
             (run (alert "Verified" "")) "482913" Example.start "alice-uid"
             (Sql.mk_profile true (Some "JBSWY3DPEHPK3PXP") (Some Example.codes))
             "JBSWY3DPEHPK3PXP"); reflexivity.
Defined.

(** ** TwoFactorSetup *)

Ltac setup_fields :=
  cbn [TwoFactorSetup.step TwoFactorSetup.isCodeVerified TwoFactorSetup.verificationCode
       TwoFactorSetup.setup_alerts TwoFactorSetup.setup_secret
       TwoFactorSetup.setup_backupCodes TwoFactorSetup.isVerifying
       TwoFactorSetup.isSettingUp TwoFactorSetup.isLoading TwoFactorSetup.wentBack
       TwoFactorSetup.set_verificationCode TwoFactorSetup.set_isCodeVerified
       TwoFactorSetup.set_isVerifying TwoFactorSetup.set_isSettingUp
       TwoFactorSetup.set_isLoading TwoFactorSetup.set_secret TwoFactorSetup.set_qrCode
       TwoFactorSetup.set_backupCodes TwoFactorSetup.setup_alert TwoFactorSetup.goBack]
    in *.

Lemma setStep_inv (v : Z) (s : TwoFactorSetup.SetupState) :
  (1 <= v <= 3)%Z -> setup_inv s -> setup_inv (TwoFactorSetup.setStep v s).
Proof.
  intros Hv Hs. unfold TwoFactorSetup.setStep.
  destruct (Z.eqb_spec v (TwoFactorSetup.step s)) as [|_]; [exact Hs|].
  destruct (Z.eqb_spec v 2) as [->|Hne]; unfold setup_inv; setup_fields.
  - split; [lia | intros []; reflexivity].
  - split; [lia | intros _; split; reflexivity].
Qed.

Lemma setStep_step (v : Z) (s : TwoFactorSetup.SetupState) :
  TwoFactorSetup.step (TwoFactorSetup.setStep v s) = v.
Proof.
  unfold TwoFactorSetup.setStep.
  destruct (Z.eqb_spec v (TwoFactorSetup.step s)) as [->|_]; [reflexivity|].
  destruct (v =? 2)%Z; reflexivity.
Qed.

Lemma handleVerifyCode_fields (hotp : string -> Z -> Result string) (now : Z)
    (s : TwoFactorSetup.SetupState) :
  let s' := TwoFactorSetup.handleVerifyCode hotp now s in
  TwoFactorSetup.step s' = TwoFactorSetup.step s /\
  TwoFactorSetup.verificationCode s' = TwoFactorSetup.verificationCode s /\
  TwoFactorSetup.isCodeVerified s'
  = TwoFactorSetup.isCodeVerified s
    || ((String.length (TwoFactorSetup.verificationCode s) =? 6)%nat
        && match TwoFactorService.generateTOTP hotp (TwoFactorSetup.setup_secret s) now with
           | Ok generated => String.eqb (TwoFactorSetup.verificationCode s) generated
           | Throw _ => false
           end).
Proof.
  cbv zeta. unfold TwoFactorSetup.handleVerifyCode.
  destruct (String.length (TwoFactorSetup.verificationCode s) =? 6)%nat eqn:Hlen.
  - rewrite (truthy_length_6 _ (proj1 (Nat.eqb_eq _ _) Hlen)). cbn [negb orb andb].
    setup_fields. rewrite verifyTOTP_spec.
    destruct (TwoFactorService.generateTOTP hotp (TwoFactorSetup.setup_secret s) now)
      as [generated|error]; [|setup_fields; now rewrite orb_false_r].
    destruct (String.eqb (TwoFactorSetup.verificationCode s) generated); setup_fields;
      [now rewrite orb_true_r | now rewrite orb_false_r].
  - rewrite orb_true_r. setup_fields. cbn [andb]. now rewrite orb_false_r.
Qed.

(** X26: every handler of the setup screen keeps the step between 1 and
    3 and keeps, outside step 2, the code field empty and unverified; the
    first render satisfies both. *)
Theorem setup_invariant (hotp : string -> Z -> Result string) (now : Z)
    (secret_error codes_error enable_error : option Error)
    (secret_random codes_random : nat -> Q) (userId full_name : string)
    (t : Sql.table) (s : TwoFactorSetup.SetupState) :
  setup_inv s ->
  setup_inv TwoFactorSetup.initial /\
  setup_inv (TwoFactorSetup.handleNext s) /\
  setup_inv (TwoFactorSetup.handleBack s) /\
  setup_inv (TwoFactorSetup.pressContinue s) /\
  setup_inv (TwoFactorSetup.handleVerifyCode hotp now s) /\
  setup_inv (TwoFactorSetup.setup2FA secret_error codes_error secret_random codes_random
               userId full_name s t).1 /\
  setup_inv (TwoFactorSetup.handleComplete enable_error codes_error codes_random
               userId s t).1.
Proof.
  intros Hs. pose proof Hs as [Hbounds Hcode].
  split; [|split; [|split; [|split; [|split; [|split]]]]].
  - split; [cbn; lia | intros _; split; reflexivity].
  - unfold TwoFactorSetup.handleNext.
    destruct ((TwoFactorSetup.step s =? 2)%Z && negb (TwoFactorSetup.isCodeVerified s));
      [exact Hs|].
    destruct (Z.ltb_spec (TwoFactorSetup.step s) 3); [|exact Hs].
    apply setStep_inv; [lia | exact Hs].
  - unfold TwoFactorSetup.handleBack.
    destruct (Z.ltb_spec 1 (TwoFactorSetup.step s)); [|exact Hs].
    apply setStep_inv; [lia | exact Hs].
  - apply setStep_inv; [lia | exact Hs].
  - destruct (handleVerifyCode_fields hotp now s) as (Hstep & Hcode' & Hverified).
    unfold setup_inv. rewrite Hstep, Hcode', Hverified.
    split; [exact Hbounds|]. intros Hne. destruct (Hcode Hne) as [-> ->].
    split; reflexivity.
  - unfold TwoFactorSetup.setup2FA.
    destruct (TwoFactorService.generateSecret secret_error secret_random userId t)
      as [[generatedSecret|e] t1]; [|exact Hs].
    cbn [TwoFactorService.generateQRCode].
    destruct (TwoFactorService.generateBackupCodes codes_error codes_random userId t1)
      as [[codes|e] t2]; exact Hs.
  - unfold TwoFactorSetup.handleComplete.
    destruct (TwoFactorService.enable2FA enable_error userId
                (TwoFactorSetup.setup_secret (TwoFactorSetup.set_isSettingUp true s)) t)
      as [[b|e] t1]; [|exact Hs].
    destruct (TwoFactorService.generateBackupCodes codes_error codes_random userId t1)
      as [[codes|e] t2]; exact Hs.
Qed.

Lemma setup_invariant_witness :
  setup_inv (TwoFactorSetup.handleNext TwoFactorSetup.initial) /\
  setup_inv (TwoFactorSetup.handleVerifyCode Example.totp 0 TwoFactorSetup.initial).
Proof.
  destruct (setup_invariant Example.totp 0 None None None (fun _ => 1 # 2) (fun _ => 1 # 2)
              "carol-uid" "Carol" (user_profile Example.client) TwoFactorSetup.initial)
    as (_ & Hnext & _ & _ & Hverify & _).
  - split; [cbn; lia | intros _; split; reflexivity].
  - split; assumption.
Defined.

(** X27: at step 2, handleNext moves to step 3 only with a verified code
    and otherwise shows "Verification Required"; handleVerifyCode marks
    the code verified only when it has six characters and is the current
    code of the shown secret, and never takes the mark back. The mark
    does not survive leaving step 2: after going back to step 1, or on to
    step 3 and back, handleNext stops at step 2 again. *)
Theorem setup_verification_gate (hotp : string -> Z -> Result string) (now : Z)
    (s : TwoFactorSetup.SetupState) :
  TwoFactorSetup.step s = 2%Z ->
  let next := TwoFactorSetup.handleNext s in
  let checked := TwoFactorSetup.handleVerifyCode hotp now s in
  (TwoFactorSetup.isCodeVerified s = false ->
   TwoFactorSetup.step next = 2%Z /\
   TwoFactorSetup.setup_alerts next
   = (TwoFactorSetup.setup_alerts s ++
      [("Verification Required",
        "Please verify your authenticator setup by entering the 6-digit code before proceeding.")])%list) /\
  (TwoFactorSetup.isCodeVerified s = true ->
   TwoFactorSetup.step next = 3%Z /\
   TwoFactorSetup.step (TwoFactorSetup.handleNext (TwoFactorSetup.handleBack next)) = 2%Z) /\
  (TwoFactorSetup.isCodeVerified checked = true ->
   TwoFactorSetup.isCodeVerified s = true \/
   String.length (TwoFactorSetup.verificationCode s) = 6%nat /\
   TwoFactorService.generateTOTP hotp (TwoFactorSetup.setup_secret s) now
   = Ok (TwoFactorSetup.verificationCode s)) /\
  (TwoFactorSetup.isCodeVerified s = true -> TwoFactorSetup.isCodeVerified checked = true) /\
  TwoFactorSetup.step
    (TwoFactorSetup.handleNext (TwoFactorSetup.handleNext (TwoFactorSetup.handleBack s)))
  = 2%Z.
Proof.
  intros Hstep. cbv zeta.
  destruct (handleVerifyCode_fields hotp now s) as (_ & _ & Hverified).
  split; [|split; [|split; [|split]]].
  - intros Hno. unfold TwoFactorSetup.handleNext. rewrite Hstep, Hno. split; [exact Hstep | reflexivity].
  - intros Hyes. destruct s as [st sec qr codes ld su code vf ok back al].
    cbn in Hstep, Hyes. subst st ok. split; reflexivity.
  - rewrite Hverified. intros H. apply orb_true_iff in H as [H|H]; [left; exact H | right].
    apply andb_true_iff in H as [Hlen Heq]. apply Nat.eqb_eq in Hlen. split; [exact Hlen|].
    destruct (TwoFactorService.generateTOTP hotp (TwoFactorSetup.setup_secret s) now)
      as [generated|error]; [|discriminate].
    apply String.eqb_eq in Heq. now subst generated.
  - intros Hyes. now rewrite Hverified, Hyes.
  - destruct s as [st sec qr codes ld su code vf ok back al].
    cbn in Hstep. subst st. reflexivity.
Qed.

Lemma setup_verification_gate_witness :
  let s := TwoFactorSetup.set_verificationCode "482913"
             (TwoFactorSetup.set_secret "JBSWY3DPEHPK3PXP"
                (TwoFactorSetup.handleNext TwoFactorSetup.initial)) in
  TwoFactorSetup.step (TwoFactorSetup.handleNext s) = 2%Z /\
  TwoFactorSetup.step
    (TwoFactorSetup.handleNext (TwoFactorSetup.handleVerifyCode Example.totp 0 s)) = 3%Z.
Proof.
  cbv zeta.
  destruct (setup_verification_gate Example.totp 0
              (TwoFactorSetup.set_verificationCode "482913"
                 (TwoFactorSetup.set_secret "JBSWY3DPEHPK3PXP"
                    (TwoFactorSetup.handleNext TwoFactorSetup.initial))))
    as (Hblocked & _); [reflexivity|].
  destruct (Hblocked eq_refl) as [Hstay _].
  split; [exact Hstay | reflexivity].
Defined.

(** X28: for a user with a row, setup2FA already writes the new secret
    and a first set of backup codes to the row, leaving the enabled flag
    as it was; handleComplete then enables 2FA with the secret that the
    screen shows and replaces the codes by a new set, the one that the
    screen shows afterwards. Other rows are untouched. When the rpc of
    enable_2fa fails, handleComplete writes nothing and shows an error. *)
Theorem setup2FA_then_handleComplete (secret_random codes_random codes_random' : nat -> Q)
    (userId full_name : string) (s : TwoFactorSetup.SetupState)
    (t : Sql.table) (row : Sql.user_profile) (error : Error) (codes_error : option Error) :
  t !! userId = Some row ->
  let setup := TwoFactorSetup.setup2FA None None secret_random codes_random
                 userId full_name s t in
  let complete := TwoFactorSetup.handleComplete None None codes_random' userId
                    setup.1 setup.2 in
  let secret := (Sql.generate_2fa_secret secret_random userId t).1 in
  let codes := (Sql.generate_backup_codes codes_random userId t).1 in
  let codes' := (Sql.generate_backup_codes codes_random' userId t).1 in
  TwoFactorSetup.setup_secret setup.1 = secret /\
  TwoFactorSetup.setup_backupCodes setup.1 = codes /\
  TwoFactorSetup.isLoading setup.1 = false /\
  TwoFactorSetup.wentBack setup.1 = TwoFactorSetup.wentBack s /\
  setup.2 !! userId
  = Some (Sql.mk_profile (Sql.two_factor_enabled row) (Some secret) (Some codes)) /\
  TwoFactorSetup.setup_secret complete.1 = secret /\
  TwoFactorSetup.setup_backupCodes complete.1 = codes' /\
  TwoFactorSetup.isSettingUp complete.1 = false /\
  complete.2 !! userId = Some (Sql.mk_profile true (Some secret) (Some codes')) /\
  (forall k, k <> userId -> complete.2 !! k = t !! k) /\
  TwoFactorSetup.handleComplete (Some error) codes_error codes_random' userId setup.1 setup.2
  = (TwoFactorSetup.set_isSettingUp false
       (TwoFactorSetup.setup_alert "Error" "Failed to enable 2FA. Please try again."
          (TwoFactorSetup.set_isSettingUp true setup.1)), setup.2).
Proof.
  intros Hrow. cbv zeta.
  unfold TwoFactorSetup.setup2FA, TwoFactorSetup.handleComplete,
    TwoFactorService.generateSecret, TwoFactorService.generateBackupCodes,
    TwoFactorService.generateQRCode, TwoFactorService.enable2FA,
    Sql.generate_2fa_secret, Sql.generate_backup_codes, Sql.enable_2fa.
  cbn [fst snd try_catch]. setup_fields.
  repeat match goal with |- _ /\ _ => split end; try reflexivity.
  - rewrite !update_where_uid_lookup, !decide_True by reflexivity.
    rewrite Hrow. reflexivity.
  - rewrite !update_where_uid_lookup, !decide_True by reflexivity.
    rewrite Hrow. reflexivity.
  - intros k Hk. rewrite !update_where_uid_lookup, !decide_False by exact Hk. reflexivity.
Qed.

Lemma setup2FA_then_handleComplete_witness :
  let setup := TwoFactorSetup.setup2FA None None (fun _ => 1 # 2) (fun _ => 1 # 2)
                 "alice-uid" "Alice" TwoFactorSetup.initial (user_profile Example.client) in
  Sql.two_factor_secret <$> setup.2 !! "alice-uid"
  = Some (Some "QQQQQQQQQQQQQQQQQQQQQQQQQQQQQQQQ") /\
  Sql.two_factor_enabled <$> setup.2 !! "alice-uid" = Some true.
Proof.
  cbv zeta.
  destruct (setup2FA_then_handleComplete (fun _ => 1 # 2) (fun _ => 1 # 2) (fun _ => 1 # 3)
              "alice-uid" "Alice" TwoFactorSetup.initial (user_profile Example.client)
              (Sql.mk_profile true (Some "JBSWY3DPEHPK3PXP") (Some Example.codes))
              (PostgrestError "Network request failed") None)
    as (_ & _ & _ & _ & Hstored & _); [vm_compute; reflexivity|].
  rewrite Hstored. split; vm_compute; reflexivity.
Defined.

(** ** Disabling 2FA from the settings *)

(** X29: handle2FADisable, for a signed-in user with a row and the server
    answering, resets the row to disabled without secret and codes and
    reloads the profile, which then reports 2FA as off; no message is
    shown. When the server does not answer nothing changes, and no message
    is shown either. *)
Theorem handle2FADisable_outcome (w : World) (u : UserProfile) (row : Sql.user_profile) :
  user (auth w) = Some u -> AuthContext.no_userId (uid u) = false ->
  let w' := world_of (AccountSettings.handle2FADisable w) in
  result_of (AccountSettings.handle2FADisable w) = Ok tt /\
  (postgrest_up (supabase w) = true ->
   user_profile (supabase w) !! uid u = Some row ->
   user_profile (supabase w') !! uid u = Some cleared /\
   (forall k, k <> uid u -> user_profile (supabase w') !! k = user_profile (supabase w) !! k) /\
   two_factor_enabled <$> user (auth w') = Some false /\
   alerts w' = alerts w) /\
  (postgrest_up (supabase w) = false -> w' = w).
Proof.
  intros Huser Hid. cbv zeta.
  assert (truthy (uid u) = true) as Htruthy.
  { unfold AuthContext.no_userId in Hid. apply orb_false_iff in Hid as [Hid _].
    now apply negb_false_iff in Hid. }
  unfold AccountSettings.handle2FADisable, try_, bind, read, AccountSettings.disable2FA,
    AccountSettings.rpc_fault, TwoFactorService.disable2FA, Sql.disable_2fa.
  rewrite Huser. cbn [fmap option_fmap option_map default from_option].
  change (Datatypes.id (uid u)) with (uid u). rewrite Htruthy.
  destruct (postgrest_up (supabase w)) eqn:Hup.
  - cbn [try_catch run ret world_of result_of fst snd]. split; [reflexivity|].
    split; [|discriminate]. intros _ Hrow.
    unfold AuthContext.fetchUserData. rewrite Hid.
    unfold Supabase.select_single. fields. rewrite Hup.
    rewrite update_where_uid_lookup, decide_True, Hrow by reflexivity.
    cbn [fmap option_fmap option_map]. fields.
    rewrite update_where_uid_lookup, decide_True, Hrow by reflexivity.
    split; [reflexivity|]. split; [|split; reflexivity].
    intros k Hk. rewrite update_where_uid_lookup, decide_False by exact Hk. reflexivity.
  - cbn [try_catch ret world_of result_of fst snd]. split; [reflexivity|].
    split; [discriminate|]. intros _.
    destruct w as [c a d l al]. destruct c. reflexivity.
Qed.

Lemma handle2FADisable_outcome_witness :
  let w := AuthContext.fetchUserData "alice-uid" true Example.start in
  let w' := world_of (AccountSettings.handle2FADisable w) in
  two_factor_enabled <$> user (auth w) = Some true /\
  two_factor_enabled <$> user (auth w') = Some false /\
  world_of (AccountSettings.handle2FADisable (offline w)) = offline w.
Proof.
  cbv zeta.
  destruct (handle2FADisable_outcome (AuthContext.fetchUserData "alice-uid" true Example.start)
              (mk_user "alice-uid" None true true)
              (Sql.mk_profile true (Some "JBSWY3DPEHPK3PXP") (Some Example.codes)))
    as (_ & Hup & _); [reflexivity | reflexivity |].
  destruct (handle2FADisable_outcome
              (offline (AuthContext.fetchUserData "alice-uid" true Example.start))
              (mk_user "alice-uid" None true true)
              (Sql.mk_profile true (Some "JBSWY3DPEHPK3PXP") (Some Example.codes)))
    as (_ & _ & Hdown); [reflexivity | reflexivity |].
  destruct Hup as (_ & _ & Hoff & _); [reflexivity | reflexivity |].
  split; [reflexivity|]. split; [exact Hoff | apply Hdown; reflexivity].
Defined.

(** ** Pull to refresh *)

(** X30: handleRefresh of the hook, when no refresh is running, runs the
    onRefresh given to the hook and ends with isRefreshing false, also
    when onRefresh throws; while a refresh is running it does nothing. The
    refresh of HistoryScreen, which gives its loader to handleRefresh
    instead of the hook, never runs the loader: the screen stays as it
    was. *)
Theorem handleRefresh_runs_hook_callback (S : Type)
    (loader : S -> Result unit * S) (isRefreshing : bool) (screen : S) :
  RefreshControl.handleRefresh S (Some loader) (isRefreshing, screen)
  = (if isRefreshing then (true, screen) else (false, (loader screen).2)) /\
  RefreshControl.handleRefresh S None (isRefreshing, screen) = (isRefreshing, screen) /\
  RefreshControl.HistoryScreen_onRefresh S loader (isRefreshing, screen)
  = (isRefreshing, screen).
Proof.
  unfold RefreshControl.HistoryScreen_onRefresh, RefreshControl.handleRefresh.
  destruct isRefreshing; repeat split; reflexivity.
Qed.
